(** * veusz [setting/setting.py]: settings that validate, convert and notify

    A shallow embedding of the module [setting.py] (class [Setting] and its
    nine subclasses [Str], [Bool], [Int], [Float], [FloatOrAuto],
    [IntOrAuto], [Distance], [Choice], [ChoiceOrMore]) together with the
    fragment of Python the module relies on, and the properties of the
    module's specification stated and settled against that embedding.

    Layout:
    - 1. Python values and the builtins the module calls;
    - 2. objects, and the methods of each class, one definition per method;
    - 3. the methods of [Setting] as programs over an object, a heap and a
         call log;
    - 4. the vocabulary of the properties and the example objects;
    - 5.-6. lemmas on text and on [set];
    - 7.-8. the properties;
    - 9. worked examples;
    - 10.-12. further properties, on sequences of calls and on how the
         conversions compose, and their worked examples.

    What the embedding fixes:
    - a value is [None], a [bool], an [int] (unbounded), a [float]
      (binary64), a [str], or an object of some other type compared by
      identity; [type(v)] distinguishes them, so [True] is not of type
      [int];
    - [==] compares numbers by value across [bool], [int] and [float]
      (exactly, and NaN equals nothing), texts character by character;
      [in] is "the same object as, or [==] to, some element", and since an
      [int], a [float] or a [str] is modelled by its value alone, two of
      them are never known to be the same object;
    - the builtins are those of CPython 3.11, and a text is a sequence of
      code points below 256: [str.strip()] drops the code points 9-13,
      28-32, 133 and 160; [str.lower()] maps [A-Z] and the upper-case
      letters 192-222 (but 215) to the letter 32 further; [int(text)]
      skips the whitespace 9-13, 32, 133 and 160, reads a sign and digits
      with single underscores between them, and, like [str(int)], raises
      [ValueError] beyond 4300 digits; [float(int)] raises
      [OverflowError] from 2^1024 - 2^970 on;
    - [str(float)] and [float(text)] are not defined here: they are
      parameters, and what a property needs of them is its hypothesis;
    - an exception leaves the state reached so far as it is;
    - the functions registered with [setOnModified] act on the state
      outside the setting only, and may raise; their calls are logged;
    - [makeControl] builds a widget through the module [controls] and is
      left out. *)

From Stdlib Require Import ZArith List Bool Lia.
From Stdlib Require Import Ascii String.
From Stdlib Require Import DecimalString DecimalPos DecimalZ.
From Stdlib Require Import Floats.
Import ListNotations.

Local Open Scope string_scope.
Local Open Scope Z_scope.

(* ================================================================== *)
(** ** 1. The Python fragment *)

(** Exceptions.  [InvalidType] is the module's own (setting.py line 35);
    the next four are the builtin exceptions its calls can raise;
    [UserError] is any other exception, such as one an observer raises. *)
Inductive exn : Type :=
| InvalidType
| ValueError
| TypeError
| OverflowError
| AttributeError
| UserError (tag : nat).

Inductive result (A : Type) : Type :=
| Ok (a : A)
| Raise (e : exn).
Arguments Ok {A} a.
Arguments Raise {A} e.

Definition rbind {A B} (r : result A) (k : A -> result B) : result B :=
  match r with
  | Ok a => k a
  | Raise e => Raise e
  end.

(** [try: body except ValueError: raise InvalidType] *)
Definition except_ValueError_raise_InvalidType {A} (body : result A) : result A :=
  match body with
  | Raise ValueError => Raise InvalidType
  | other => other
  end.

(** Values.  The module tests for [bool], [int], [float], [str] and [None];
    [VObj] stands for an object of any other type, compared by identity.
    Integers are unbounded; floats are binary64. *)
Inductive pyval : Type :=
| VNone
| VBool (b : bool)
| VInt (z : Z)
| VFloat (f : float)
| VStr (s : string)
| VObj (id : nat).

Inductive pytype : Type := NoneType | bool_t | int_t | float_t | str_t | object_t.

(** [type(v)] *)
Definition type (v : pyval) : pytype :=
  match v with
  | VNone => NoneType
  | VBool _ => bool_t
  | VInt _ => int_t
  | VFloat _ => float_t
  | VStr _ => str_t
  | VObj _ => object_t
  end.

Definition pytype_eqb (a b : pytype) : bool :=
  match a, b with
  | NoneType, NoneType | bool_t, bool_t | int_t, int_t
  | float_t, float_t | str_t, str_t | object_t, object_t => true
  | _, _ => false
  end.

(** [t in (t1, t2, ...)] on types *)
Definition type_in (t : pytype) (ts : list pytype) : bool :=
  existsb (pytype_eqb t) ts.

(** *** Numbers *)

Definition Z_of_bool (b : bool) : Z := if b then 1 else 0.

(** The least positive integer that [float()] refuses: half-way between
    the largest binary64 and [2 ** 1024], which rounds to the latter. *)
Definition float_int_limit : Z := 2 ^ 1024 - 2 ^ 970.

(** [float(z)] for an integer: the nearest binary64, ties to even;
    [OverflowError] ("int too large to convert to float") from
    [float_int_limit] on, in either sign. *)
Definition float_of_Z (z : Z) : result float :=
  if Z.abs z <? float_int_limit
  then Ok (SF2Prim (binary_normalize prec emax z 0 false))
  else Raise OverflowError.

(** [f == z] between a float and an integer compares the exact values. *)
Definition float_eqb_Z (f : float) (z : Z) : bool :=
  match Prim2SF f with
  | S754_zero _ => z =? 0
  | S754_finite s m e =>
      let mz := if s then Z.neg m else Z.pos m in
      if 0 <=? e then z =? mz * 2 ^ e else z * 2 ^ (- e) =? mz
  | S754_infinity _ | S754_nan => false
  end.

(** [int(f)] for a float truncates towards zero. *)
Definition Z_of_float (f : float) : result Z :=
  match Prim2SF f with
  | S754_zero _ => Ok 0
  | S754_finite s m e =>
      let mz := if s then Z.neg m else Z.pos m in
      Ok (if 0 <=? e then mz * 2 ^ e else Z.quot mz (2 ^ (- e)))
  | S754_infinity _ => Raise OverflowError
  | S754_nan => Raise ValueError
  end.

(** *** Equality and truth *)

Inductive number : Type := NInt (z : Z) | NFloat (f : float).

Definition as_number (v : pyval) : option number :=
  match v with
  | VBool b => Some (NInt (Z_of_bool b))
  | VInt z => Some (NInt z)
  | VFloat f => Some (NFloat f)
  | _ => None
  end.

Definition number_eqb (a b : number) : bool :=
  match a, b with
  | NInt x, NInt y => x =? y
  | NFloat f, NFloat g => PrimFloat.eqb f g
  | NFloat f, NInt z | NInt z, NFloat f => float_eqb_Z f z
  end.

(** [a == b] *)
Definition py_eq (a b : pyval) : bool :=
  match a, b with
  | VNone, VNone => true
  | VStr s, VStr t => String.eqb s t
  | VObj i, VObj j => Nat.eqb i j
  | _, _ =>
      match as_number a, as_number b with
      | Some x, Some y => number_eqb x y
      | _, _ => false
      end
  end.

(** [bool(v)], also the truth value of [v] under [if] *)
Definition py_bool (v : pyval) : bool :=
  match v with
  | VNone => false
  | VBool b => b
  | VInt z => negb (z =? 0)
  | VFloat f => negb (PrimFloat.eqb f 0)
  | VStr s => negb (String.eqb s "")
  | VObj _ => true
  end.

(** [a is b], as far as values tell.  [None], [True] and [False] are
    single objects and an object of another type is itself.  An [int], a
    [str] or a [float] does not say which object it is: two occurrences
    are taken to be two objects.  For ints and texts this is immaterial
    below, since [==] holds between equal ones anyway; a NaN passed as
    the very object a list holds is the one case the values cannot show. *)
Definition py_is (a b : pyval) : bool :=
  match a, b with
  | VNone, VNone => true
  | VBool x, VBool y => Bool.eqb x y
  | VObj i, VObj j => Nat.eqb i j
  | _, _ => false
  end.

(** [v in seq] for a list or tuple: some element is [v] or equals [v]. *)
Definition py_in (v : pyval) (seq : list pyval) : bool :=
  existsb (fun e => py_is v e || py_eq v e)%bool seq.

(** *** Text *)

(** A text is a sequence of code points below 256 (the Latin-1 part of
    [str]); the builtins below are those of CPython 3.11 on such texts. *)

(** Whitespace of [str.strip()] and [str.isspace()]: tab to carriage
    return (9-13), the four separators 28-31, space, NEL (133) and the
    no-break space (160). *)
Definition isspace (c : ascii) : bool :=
  let n := nat_of_ascii c in
  ((Nat.leb 9 n && Nat.leb n 13) || (Nat.leb 28 n && Nat.leb n 32)
   || Nat.eqb n 133 || Nat.eqb n 160)%bool.

(** Whitespace of [int(text)]: as above without the separators 28-31,
    which [int()] does not skip. *)
Definition isspace_int (c : ascii) : bool :=
  let n := nat_of_ascii c in
  ((Nat.leb 9 n && Nat.leb n 13) || Nat.eqb n 32
   || Nat.eqb n 133 || Nat.eqb n 160)%bool.

Fixpoint lstrip_by (p : ascii -> bool) (s : string) : string :=
  match s with
  | EmptyString => EmptyString
  | String c r => if p c then lstrip_by p r else s
  end.

Fixpoint rstrip_by (p : ascii -> bool) (s : string) : string :=
  match s with
  | EmptyString => EmptyString
  | String c r =>
      match rstrip_by p r with
      | EmptyString => if p c then EmptyString else String c EmptyString
      | r' => String c r'
      end
  end.

Definition strip_by (p : ascii -> bool) (s : string) : string :=
  rstrip_by p (lstrip_by p s).

(** [s.strip()] *)
Definition strip (s : string) : string := strip_by isspace s.

(** Upper-case letters: [A-Z] and the Latin-1 letters 192-222 except the
    multiplication sign 215; each has its lower-case form 32 further. *)
Definition lower_char (c : ascii) : ascii :=
  let n := nat_of_ascii c in
  if ((Nat.leb 65 n && Nat.leb n 90)
      || (Nat.leb 192 n && Nat.leb n 222 && negb (Nat.eqb n 215)))%bool
  then ascii_of_nat (n + 32) else c.

(** [s.lower()] *)
Fixpoint lower (s : string) : string :=
  match s with
  | EmptyString => EmptyString
  | String c r => String (lower_char c) (lower r)
  end.

(** [t in ('w1', 'w2', ...)] on text *)
Definition str_in (t : string) (ws : list string) : bool :=
  existsb (String.eqb t) ws.

(** The most decimal digits [str()] writes and [int()] reads
    ([sys.get_int_max_str_digits()]); beyond it both raise [ValueError]. *)
Definition max_str_digits : nat := 4300.

(** The decimal digits of [abs(z)]. *)
Definition digits_of_Z (z : Z) : string :=
  NilZero.string_of_uint (N.to_uint (Z.abs_N z)).

(** [str(z)] for an integer: decimal digits, ["-"] in front when
    negative; [None] is the [ValueError] of more than [max_str_digits]
    digits. *)
Definition str_of_Z (z : Z) : option string :=
  let d := digits_of_Z z in
  if Nat.ltb max_str_digits (String.length d) then None
  else Some (if z <? 0 then String "-" d else d).

Definition is_digit (c : ascii) : bool :=
  let n := nat_of_ascii c in (Nat.leb 48 n && Nat.leb n 57)%bool.

(** The digits of a numeral in which single underscores may stand between
    digits: [after_digit] says that the character before was a digit, which
    is when an underscore may come and when the numeral may end. *)
Fixpoint plain_digits (s : string) (after_digit : bool) : option string :=
  match s with
  | EmptyString => if after_digit then Some EmptyString else None
  | String c r =>
      if is_digit c then option_map (String c) (plain_digits r true)
      else if (Ascii.eqb c "_" && after_digit)%bool then plain_digits r false
      else None
  end.

(** An unsigned numeral: its digits, leading zeros included, count against
    [max_str_digits]. *)
Definition unsigned_of_str (s : string) : option Z :=
  match plain_digits s false with
  | Some d =>
      if Nat.ltb max_str_digits (String.length d) then None
      else option_map Z.of_uint (NilEmpty.uint_of_string d)
  | None => None
  end.

(** [int(text)]: surrounding whitespace is dropped, then come an optional
    sign and the numeral; [None] is [ValueError]. *)
Definition Z_of_str (s : string) : option Z :=
  match strip_by isspace_int s with
  | EmptyString => None
  | String c r =>
      if Ascii.eqb c "+" then unsigned_of_str r
      else if Ascii.eqb c "-" then option_map Z.opp (unsigned_of_str r)
      else unsigned_of_str (String c r)
  end.

(** *** What the module imports or calls and this file does not define *)

(** The text codec of floats ([str(x)] and [float(text)], whose output
    depends on the interpreter version), the text of an object of another
    type, and the distance checker [utils.isDist] of the sibling module
    [utils], which is not part of [setting.py].  [isDist] is given the
    truth value of what the checker returns, or the exception it raises. *)
Record externals : Type := {
  float_str : float -> string;
  float_of_str : string -> option float;
  object_str : nat -> string;
  isDist : pyval -> result bool
}.

Section Builtins.
Variable E : externals.

(** [str(v)] *)
Definition py_str (v : pyval) : result string :=
  match v with
  | VNone => Ok "None"
  | VBool true => Ok "True"
  | VBool false => Ok "False"
  | VInt z =>
      match str_of_Z z with
      | Some t => Ok t
      | None => Raise ValueError
      end
  | VFloat f => Ok (float_str E f)
  | VStr s => Ok s
  | VObj i => Ok (object_str E i)
  end.

(** [int(v)] *)
Definition py_int (v : pyval) : result pyval :=
  match v with
  | VStr s =>
      match Z_of_str s with
      | Some z => Ok (VInt z)
      | None => Raise ValueError
      end
  | VBool b => Ok (VInt (Z_of_bool b))
  | VInt z => Ok (VInt z)
  | VFloat f => rbind (Z_of_float f) (fun z => Ok (VInt z))
  | VNone | VObj _ => Raise TypeError
  end.

(** [float(v)] *)
Definition py_float (v : pyval) : result pyval :=
  match v with
  | VStr s =>
      match float_of_str E s with
      | Some f => Ok (VFloat f)
      | None => Raise ValueError
      end
  | VBool b => rbind (float_of_Z (Z_of_bool b)) (fun f => Ok (VFloat f))
  | VInt z => rbind (float_of_Z z) (fun f => Ok (VFloat f))
  | VFloat f => Ok (VFloat f)
  | VNone | VObj _ => Raise TypeError
  end.
End Builtins.

(** [text.strip().lower()]; a value without these methods raises
    [AttributeError]. *)
Definition strip_lower (text : pyval) : result string :=
  match text with
  | VStr s => Ok (lower (strip s))
  | _ => Raise AttributeError
  end.

(* ================================================================== *)
(** ** 2. Objects and the methods of each class *)

(** The nine concrete classes of the module. *)
Inductive klass : Type :=
| Str | Bool | Int | Float | FloatOrAuto | IntOrAuto
| Distance | Choice | ChoiceOrMore.

Section Objects.
(** [W] is the part of the program state outside the setting, which is
    all an [onmodified] function can read or change: a function that
    re-enters the setting it is registered on is not modelled. *)
Variable W : Type.

(** A function registered with [setOnModified]: [cb_id] identifies it in
    the call log, [cb_call] is what calling it does. *)
Record callback : Type := {
  cb_id : nat;
  cb_call : bool -> W -> result unit * W
}.

(** The attributes of a setting.  [val] is unbound until the first [set]
    has assigned it.  [vallist] and [images] exist on [Choice] and
    [ChoiceOrMore] objects only; on the others they are left empty and
    never read. *)
Record setting : Type := {
  class_ : klass;
  name : string;
  descr : string;
  default : pyval;
  onmodified : list callback;
  val : option pyval;
  vallist : list pyval;
  images : list (pyval * pyval)
}.

(** [self.val] *)
Definition self_val (self : setting) : result pyval :=
  match val self with
  | Some v => Ok v
  | None => Raise AttributeError
  end.

(** *** class Setting (defaults of the overridable methods) *)

Definition Setting_convertTo (val : pyval) : result pyval := Ok val.

Definition Setting_convertFrom (val : pyval) : pyval := val.

Definition Setting_toText (self : setting) : result pyval := Ok (VStr "").

Definition Setting_fromText (text : pyval) : result pyval := Ok VNone.

(** *** class Str *)

Definition Str_convertTo (val : pyval) : result pyval :=
  if pytype_eqb (type val) str_t then Ok val else Raise InvalidType.

Definition Str_toText (self : setting) : result pyval := self_val self.

Definition Str_fromText (text : pyval) : result pyval := Ok text.

(** *** class Bool *)

Definition Bool_convertTo (val : pyval) : result pyval :=
  if type_in (type val) [bool_t; int_t] then Ok (VBool (py_bool val))
  else Raise InvalidType.

Definition Bool_toText (self : setting) : result pyval :=
  rbind (self_val self) (fun v =>
  if py_bool v then Ok (VStr "True") else Ok (VStr "False")).

Definition Bool_fromText (text : pyval) : result pyval :=
  rbind (strip_lower text) (fun t =>
  if str_in t ["true"; "1"; "t"; "y"; "yes"] then Ok (VBool true)
  else if str_in t ["false"; "0"; "f"; "n"; "no"] then Ok (VBool false)
  else Raise InvalidType).

(** *** class Choice *)

Definition Choice_convertTo (self : setting) (val : pyval) : result pyval :=
  if py_in val (vallist self) then Ok val else Raise InvalidType.

Definition Choice_toText (self : setting) : result pyval := self_val self.

Definition Choice_fromText (self : setting) (text : pyval) : result pyval :=
  if py_in text (vallist self) then Ok text else Raise InvalidType.

(** *** class ChoiceOrMore *)

Definition ChoiceOrMore_convertTo (val : pyval) : result pyval := Ok val.

Definition ChoiceOrMore_toText (self : setting) : result pyval := self_val self.

Definition ChoiceOrMore_fromText (text : pyval) : result pyval := Ok text.

Section WithExternals.
Variable E : externals.

(** *** class Int *)

Definition Int_convertTo (val : pyval) : result pyval :=
  if pytype_eqb (type val) int_t then Ok val else Raise InvalidType.

Definition Int_toText (self : setting) : result pyval :=
  rbind (self_val self) (fun v =>
  rbind (py_str E v) (fun t => Ok (VStr t))).

Definition Int_fromText (text : pyval) : result pyval :=
  except_ValueError_raise_InvalidType (py_int text).

(** *** class Float *)

Definition Float_convertTo (val : pyval) : result pyval :=
  if type_in (type val) [float_t; int_t] then py_float E val
  else Raise InvalidType.

Definition Float_toText (self : setting) : result pyval :=
  rbind (self_val self) (fun v =>
  rbind (py_str E v) (fun t => Ok (VStr t))).

Definition Float_fromText (text : pyval) : result pyval :=
  except_ValueError_raise_InvalidType (py_float E text).

(** *** class FloatOrAuto *)

(** [type(val) == str and val.strip().lower() == 'auto'] *)
Definition is_auto_text (val : pyval) : bool :=
  match val with
  | VStr s => String.eqb (lower (strip s)) "auto"
  | _ => false
  end.

Definition FloatOrAuto_convertTo (val : pyval) : result pyval :=
  if type_in (type val) [int_t; float_t] then py_float E val
  else if is_auto_text val then Ok VNone
  else Raise InvalidType.

Definition FloatOrAuto_convertFrom (val : pyval) : pyval :=
  if py_eq val VNone then VStr "Auto" else val.

Definition FloatOrAuto_toText (self : setting) : result pyval :=
  rbind (self_val self) (fun v =>
  if py_eq v VNone then Ok (VStr "Auto")
  else rbind (py_str E v) (fun t => Ok (VStr t))).

Definition FloatOrAuto_fromText (text : pyval) : result pyval :=
  rbind (strip_lower text) (fun t =>
  if String.eqb t "auto" then Ok (VStr "Auto")
  else except_ValueError_raise_InvalidType (py_float E text)).

(** *** class IntOrAuto *)

Definition IntOrAuto_convertTo (val : pyval) : result pyval :=
  if pytype_eqb (type val) int_t then Ok val
  else if is_auto_text val then Ok VNone
  else Raise InvalidType.

Definition IntOrAuto_convertFrom (val : pyval) : pyval :=
  if py_eq val VNone then VStr "Auto" else val.

Definition IntOrAuto_toText (self : setting) : result pyval :=
  rbind (self_val self) (fun v =>
  if py_eq v VNone then Ok (VStr "Auto")
  else rbind (py_str E v) (fun t => Ok (VStr t))).

Definition IntOrAuto_fromText (text : pyval) : result pyval :=
  rbind (strip_lower text) (fun t =>
  if String.eqb t "auto" then Ok (VStr "Auto")
  else except_ValueError_raise_InvalidType (py_int text)).

(** *** class Distance *)

Definition Distance_convertTo (val : pyval) : result pyval :=
  rbind (isDist E val) (fun ok =>
  if ok then Ok val else Raise InvalidType).

Definition Distance_toText (self : setting) : result pyval := self_val self.

Definition Distance_fromText (text : pyval) : result pyval :=
  rbind (isDist E text) (fun ok =>
  if ok then Ok text else Raise InvalidType).

(** *** Method lookup: [self.convertTo], [self.convertFrom],
    [self.toText], [self.fromText] resolve in the object's class, and
    in [Setting] where the class does not override.  Each of the nine
    classes overrides [convertTo], [toText] and [fromText]; only the two
    [...OrAuto] classes override [convertFrom]. *)

Definition convertTo (self : setting) (val : pyval) : result pyval :=
  match class_ self with
  | Str => Str_convertTo val
  | Bool => Bool_convertTo val
  | Int => Int_convertTo val
  | Float => Float_convertTo val
  | FloatOrAuto => FloatOrAuto_convertTo val
  | IntOrAuto => IntOrAuto_convertTo val
  | Distance => Distance_convertTo val
  | Choice => Choice_convertTo self val
  | ChoiceOrMore => ChoiceOrMore_convertTo val
  end.

Definition convertFrom (self : setting) (val : pyval) : pyval :=
  match class_ self with
  | FloatOrAuto => FloatOrAuto_convertFrom val
  | IntOrAuto => IntOrAuto_convertFrom val
  | _ => Setting_convertFrom val
  end.

Definition toText (self : setting) : result pyval :=
  match class_ self with
  | Str => Str_toText self
  | Bool => Bool_toText self
  | Int => Int_toText self
  | Float => Float_toText self
  | FloatOrAuto => FloatOrAuto_toText self
  | IntOrAuto => IntOrAuto_toText self
  | Distance => Distance_toText self
  | Choice => Choice_toText self
  | ChoiceOrMore => ChoiceOrMore_toText self
  end.

Definition fromText (self : setting) (text : pyval) : result pyval :=
  match class_ self with
  | Str => Str_fromText text
  | Bool => Bool_fromText text
  | Int => Int_fromText text
  | Float => Float_fromText text
  | FloatOrAuto => FloatOrAuto_fromText text
  | IntOrAuto => IntOrAuto_fromText text
  | Distance => Distance_fromText text
  | Choice => Choice_fromText self text
  | ChoiceOrMore => ChoiceOrMore_fromText text
  end.

(* -------------------------------------------------------------- *)
(** ** 3. The methods of [Setting] as programs *)

(** What a method runs on: the object [self], the state outside it,
    and the log of the calls made to [onmodified] functions, oldest
    first, each with the function's [cb_id] and its argument. *)
Record machine : Type := {
  obj : setting;
  heap : W;
  calls : list (nat * bool)
}.

(** A program returns a value or raises; either way the state it has
    reached stays as it is (an exception undoes nothing). *)
Definition M (A : Type) : Type := machine -> result A * machine.

Definition ret {A} (a : A) : M A := fun m => (Ok a, m).

Definition bind {A B} (c : M A) (k : A -> M B) : M B :=
  fun m =>
    match c m with
    | (Ok a, m') => k a m'
    | (Raise e, m') => (Raise e, m')
    end.

Definition lift {A} (r : result A) : M A := fun m => (r, m).

Definition read_self : M setting := fun m => (Ok (obj m), m).

Definition write_self (f : setting -> setting) : M unit :=
  fun m => (Ok tt, {| obj := f (obj m); heap := heap m; calls := calls m |}).

Notation "x <- c ;; k" := (bind c (fun x => k))
  (at level 61, c at next level, right associativity).
Notation "c ;; k" := (bind c (fun _ => k))
  (at level 61, right associativity).

(** Attribute assignment [self.a = x], one per attribute. *)
Definition set_name (x : string) (s : setting) : setting :=
  {| class_ := class_ s; name := x; descr := descr s; default := default s;
     onmodified := onmodified s; val := val s; vallist := vallist s;
     images := images s |}.
Definition set_descr (x : string) (s : setting) : setting :=
  {| class_ := class_ s; name := name s; descr := x; default := default s;
     onmodified := onmodified s; val := val s; vallist := vallist s;
     images := images s |}.
Definition set_default (x : pyval) (s : setting) : setting :=
  {| class_ := class_ s; name := name s; descr := descr s; default := x;
     onmodified := onmodified s; val := val s; vallist := vallist s;
     images := images s |}.
Definition set_onmodified (x : list callback) (s : setting) : setting :=
  {| class_ := class_ s; name := name s; descr := descr s; default := default s;
     onmodified := x; val := val s; vallist := vallist s;
     images := images s |}.
Definition set_val (x : pyval) (s : setting) : setting :=
  {| class_ := class_ s; name := name s; descr := descr s; default := default s;
     onmodified := onmodified s; val := Some x; vallist := vallist s;
     images := images s |}.
Definition set_vallist (x : list pyval) (s : setting) : setting :=
  {| class_ := class_ s; name := name s; descr := descr s; default := default s;
     onmodified := onmodified s; val := val s; vallist := x;
     images := images s |}.
Definition set_images (x : list (pyval * pyval)) (s : setting) : setting :=
  {| class_ := class_ s; name := name s; descr := descr s; default := default s;
     onmodified := onmodified s; val := val s; vallist := vallist s;
     images := x |}.

(** [i(arg)]: the call is logged, then the function runs on the heap. *)
Definition call (i : callback) (arg : bool) : M unit :=
  fun m =>
    let (r, h) := cb_call i arg (heap m) in
    (r, {| obj := obj m; heap := h; calls := calls m ++ [(cb_id i, arg)] |}).

(** [for x in xs: body(x)] *)
Fixpoint for_in {A} (xs : list A) (body : A -> M unit) : M unit :=
  match xs with
  | [] => ret tt
  | x :: rest => body x ;; for_in rest body
  end.

(** [Setting.set] (lines 75-79) *)
Definition Setting_set (val : pyval) : M unit :=
  self <- read_self ;;
  v <- lift (convertTo self val) ;;
  write_self (set_val v) ;;
  self <- read_self ;;
  for_in (onmodified self) (fun i => call i true).

(** [Setting.get] (lines 71-73) *)
Definition Setting_get : M pyval :=
  self <- read_self ;;
  v <- lift (self_val self) ;;
  ret (convertFrom self v).

(** [Setting.setOnModified] (lines 50-52) *)
Definition Setting_setOnModified (fn : callback) : M unit :=
  write_self (fun s => set_onmodified (onmodified s ++ [fn]) s).

(** [Setting.newDefault] (lines 54-57) *)
Definition Setting_newDefault (val : pyval) : M unit :=
  write_self (set_default val) ;;
  Setting_set val.

(** [Setting.isDefault] (lines 59-61) *)
Definition Setting_isDefault : M bool :=
  g <- Setting_get ;;
  self <- read_self ;;
  ret (py_eq g (default self)).

(** [Setting.getName], [Setting.getDescription] (lines 63-69) *)
Definition Setting_getName : M string :=
  self <- read_self ;; ret (name self).
Definition Setting_getDescription : M string :=
  self <- read_self ;; ret (descr self).

(** The calls [self.toText()] and [self.fromText(text)] as programs:
    they read the object and change nothing. *)
Definition call_toText : M pyval :=
  self <- read_self ;; lift (toText self).
Definition call_fromText (text : pyval) : M pyval :=
  self <- read_self ;; lift (fromText self text).

(** [Setting.__init__] (lines 39-48) *)
Definition Setting_init (name : string) (val : pyval) (descr : string) : M unit :=
  write_self (set_name name) ;;
  write_self (set_descr descr) ;;
  write_self (set_default val) ;;
  write_self (set_onmodified []) ;;
  Setting_set val.

(** [Choice.__init__] (lines 290-296) and [ChoiceOrMore.__init__]
    (lines 322-327).  [vallist] is a list here, so the assertion of
    line 293 holds. *)
Definition Choice_init (name : string) (vallist : list pyval) (val : pyval)
    (images : list (pyval * pyval)) (descr : string) : M unit :=
  write_self (set_vallist vallist) ;;
  write_self (set_images images) ;;
  Setting_init name val descr.

Definition ChoiceOrMore_init (name : string) (vallist : list pyval) (val : pyval)
    (images : list (pyval * pyval)) (descr : string) : M unit :=
  write_self (set_vallist vallist) ;;
  write_self (set_images images) ;;
  Setting_init name val descr.

(** An object of class [c] before its [__init__] has run: no attribute
    is bound yet.  Only [val] can be read before it is assigned, so
    only [val] records that. *)
Definition blank (c : klass) : setting :=
  {| class_ := c; name := ""; descr := ""; default := VNone;
     onmodified := []; val := None; vallist := []; images := [] |}.

(** The expression [c(name, val, descr)], and for the two choice
    classes [c(name, vallist, val, images, descr)]: the new object, or
    the exception of its [__init__]. *)
Definition new (c : klass) (name : string) (vallist : list pyval) (val : pyval)
    (images : list (pyval * pyval)) (descr : string) (h : W)
    : result setting * W :=
  let init :=
    match c with
    | Choice => Choice_init name vallist val images descr
    | ChoiceOrMore => ChoiceOrMore_init name vallist val images descr
    | _ => Setting_init name val descr
    end in
  match init {| obj := blank c; heap := h; calls := [] |} with
  | (Ok _, m) => (Ok (obj m), heap m)
  | (Raise e, m) => (Raise e, heap m)
  end.
End WithExternals.
End Objects.

Arguments cb_id {W} c.
Arguments cb_call {W} c _ _.
Arguments class_ {W} s.
Arguments name {W} s.
Arguments descr {W} s.
Arguments default {W} s.
Arguments onmodified {W} s.
Arguments val {W} s.
Arguments vallist {W} s.
Arguments images {W} s.
Arguments obj {W} m.
Arguments heap {W} m.
Arguments calls {W} m.

(* ================================================================== *)
(** ** 4. Vocabulary of the properties *)

(** Collaborators for the worked examples below, none of which involves a
    float's text or a distance: this checker accepts nothing and this
    codec reads nothing. *)
Definition example_externals : externals :=
  {| float_str := fun _ => "nan";
     float_of_str := fun _ => None;
     object_str := fun _ => "<object>";
     isDist := fun _ => Ok false |}.

Section Vocabulary.
Context {W : Type} (E : externals).

(** The loop of [Setting.set]: every function of [obs] called with
    [True], in order, until one raises. *)
Definition notify (obs : list (callback W)) : M W unit :=
  for_in W obs (fun i => call W i true).

(** The state after [self.val = x]. *)
Definition stored (x : pyval) (m : machine W) : machine W :=
  {| obj := set_val W x (obj m); heap := heap m; calls := calls m |}.

(** No function registered on the setting raises. *)
Definition quiet (m : machine W) : Prop :=
  forall i h, In i (onmodified (obj m)) -> fst (cb_call i true h) = Ok tt.

(** [set(v)] passes validation: [convertTo] yields [x], [x] is what is
    stored afterwards, and the call returns unless an observer raises. *)
Definition accepts (m : machine W) (v x : pyval) : Prop :=
  convertTo W E (obj m) v = Ok x /\
  val (obj (snd (Setting_set W E v m))) = Some x /\
  (quiet m -> fst (Setting_set W E v m) = Ok tt).

(** [set(v)] fails validation: [InvalidType] from [convertTo], and the
    whole state (object, heap, call log) is as before. *)
Definition rejects (m : machine W) (v : pyval) : Prop :=
  convertTo W E (obj m) v = Raise InvalidType /\
  Setting_set W E v m = (Raise InvalidType, m).


(** The state right after a construction with [v] or a [newDefault(v)]
    that passed validation: [default] is [v] as passed and [val] is what
    [convertTo] made of [v]. *)
Definition at_default (m : machine W) (v : pyval) : Prop :=
  default (obj m) = v /\
  exists x, convertTo W E (obj m) v = Ok x /\ val (obj m) = Some x.
End Vocabulary.

(** Every character of [s] satisfies [p]. *)
Fixpoint all_chars (p : ascii -> bool) (s : string) : bool :=
  match s with
  | EmptyString => true
  | String c r => (p c && all_chars p r)%bool
  end.

(** The first and the last character of a text, if it has any, and what
    it is for such a character not to satisfy [p]. *)
Definition first_char (s : string) : option ascii :=
  match s with
  | EmptyString => None
  | String c _ => Some c
  end.

Fixpoint last_char (s : string) : option ascii :=
  match s with
  | EmptyString => None
  | String c EmptyString => Some c
  | String _ r => last_char r
  end.

Definition not_at (p : ascii -> bool) (c : option ascii) : Prop :=
  match c with
  | Some a => p a = false
  | None => True
  end.

(** The characters of a decimal numeral. *)
Definition numeral_char (c : ascii) : bool :=
  let n := nat_of_ascii c in
  (Nat.eqb n 45 || (Nat.leb 48 n && Nat.leb n 57))%bool.


(** *** Objects for the worked examples *)

(** An observer that counts its calls on a heap that is one counter. *)
Definition tick (n : nat) : callback nat :=
  {| cb_id := n; cb_call := fun _ h => (Ok tt, S h) |}.

(** A setting before anything was called on it after its construction
    and registrations: counter at zero, empty call log. *)
Definition fresh (s : setting nat) : machine nat :=
  {| obj := s; heap := 0%nat; calls := [] |}.

(** [Bool('flag', True)] with [tick 1] and [tick 2] registered. *)
Definition flag : setting nat :=
  {| class_ := Bool; name := "flag"; descr := ""; default := VBool true;
     onmodified := [tick 1; tick 2]; val := Some (VBool true);
     vallist := []; images := [] |}.

(** [FloatOrAuto('min', 'Auto')] with [tick 1] registered. *)
Definition minimum : setting nat :=
  {| class_ := FloatOrAuto; name := "min"; descr := ""; default := VStr "Auto";
     onmodified := [tick 1]; val := Some VNone;
     vallist := []; images := [] |}.

(** [FloatOrAuto('level', 2.5)] with [tick 1] registered. *)
Definition level : setting nat :=
  {| class_ := FloatOrAuto; name := "level"; descr := ""; default := VFloat 2.5;
     onmodified := [tick 1]; val := Some (VFloat 2.5);
     vallist := []; images := [] |}.

(** [Choice('style', ['a', 'b'], 'a')] and
    [ChoiceOrMore('style', ['a', 'b'], 'a')]. *)
Definition style (c : klass) : setting nat :=
  {| class_ := c; name := "style"; descr := ""; default := VStr "a";
     onmodified := []; val := Some (VStr "a");
     vallist := [VStr "a"; VStr "b"]; images := [] |}.

(** *** Callers: any sequence of calls on a setting *)

(** The types a class keeps in [val]; [None] where the class stores what
    it was given ([Distance], [Choice], [ChoiceOrMore]). *)
Definition storage_types (c : klass) : option (list pytype) :=
  match c with
  | Str => Some [str_t]
  | Bool => Some [bool_t]
  | Int => Some [int_t]
  | Float => Some [float_t]
  | FloatOrAuto => Some [float_t; NoneType]
  | IntOrAuto => Some [int_t; NoneType]
  | Distance | Choice | ChoiceOrMore => None
  end.

Definition well_stored (c : klass) (v : pyval) : bool :=
  match storage_types c with
  | Some ts => type_in (type v) ts
  | None => true
  end.

(** The [vallist] a constructor of class [c] leaves on the object. *)
Definition vallist_of (c : klass) (vl : list pyval) : list pyval :=
  match c with
  | Choice | ChoiceOrMore => vl
  | _ => []
  end.

Section Callers.
Context {W : Type} (E : externals).

(** One call a user of a setting can make. *)
Inductive op : Type :=
| Do_set (v : pyval)
| Do_newDefault (v : pyval)
| Do_setOnModified (fn : callback W)
| Do_get
| Do_isDefault
| Do_toText
| Do_fromText (text : pyval)
| Do_getName
| Do_getDescription.

(** The state a call leaves, whether it returned or raised (the caller
    catches the exception and goes on). *)
Definition run (o : op) (m : machine W) : machine W :=
  match o with
  | Do_set v => snd (Setting_set W E v m)
  | Do_newDefault v => snd (Setting_newDefault W E v m)
  | Do_setOnModified fn => snd (Setting_setOnModified W fn m)
  | Do_get => snd (Setting_get W m)
  | Do_isDefault => snd (Setting_isDefault W m)
  | Do_toText => snd (call_toText W E m)
  | Do_fromText text => snd (call_fromText W E text m)
  | Do_getName => snd (Setting_getName W m)
  | Do_getDescription => snd (Setting_getDescription W m)
  end.

Definition run_all (os : list op) (m : machine W) : machine W :=
  fold_left (fun m o => run o m) os m.

(** The functions a sequence of calls registers, in order. *)
Fixpoint registered (os : list op) : list (callback W) :=
  match os with
  | [] => []
  | Do_setOnModified fn :: rest => fn :: registered rest
  | _ :: rest => registered rest
  end.

(** The attributes no call assigns. *)
Definition same_identity (s1 s2 : setting W) : Prop :=
  class_ s1 = class_ s2 /\ name s1 = name s2 /\ descr s1 = descr s2 /\
  vallist s1 = vallist s2 /\ images s1 = images s2.

(** [val] is unbound or holds something [convertTo] returned. *)
Definition holds_accepted_value (m : machine W) : Prop :=
  forall v, val (obj m) = Some v ->
  exists x, convertTo W E (obj m) x = Ok v.
End Callers.

Arguments Do_get {W}.
Arguments Do_isDefault {W}.
Arguments Do_toText {W}.
Arguments Do_getName {W}.
Arguments Do_getDescription {W}.
Arguments Do_set {W} v.
Arguments Do_newDefault {W} v.
Arguments Do_fromText {W} text.

(** *** More objects for the worked examples *)

(** An observer that raises. *)
Definition grumpy (n : nat) : callback nat :=
  {| cb_id := n; cb_call := fun _ h => (Raise (UserError n), h) |}.

(** [Bool('flag', True)] with [tick 1], [grumpy 2] and [tick 3]
    registered, in this order. *)
Definition guarded : setting nat :=
  {| class_ := Bool; name := "flag"; descr := ""; default := VBool true;
     onmodified := [tick 1; grumpy 2; tick 3]; val := Some (VBool true);
     vallist := []; images := [] |}.

(** [c('count', v, 'how many')] for a class [c] that stores [v] as given. *)
Definition count (c : klass) (v : pyval) : setting nat :=
  {| class_ := c; name := "count"; descr := "how many"; default := v;
     onmodified := []; val := Some v; vallist := []; images := [] |}.

(* ================================================================== *)
(** ** 5. Lemmas on text *)

Lemma all_chars_impl (p q : ascii -> bool) (s : string) :
  (forall c, p c = true -> q c = true) ->
  all_chars p s = true -> all_chars q s = true.
Proof.
  intros Hpq. induction s as [|c r IH]; simpl; [easy|].
  intros H. apply andb_true_iff in H as [Hc Hr].
  rewrite (Hpq _ Hc), (IH Hr). reflexivity.
Qed.

Lemma rstrip_by_id (p : ascii -> bool) (s : string) :
  all_chars (fun c => negb (p c)) s = true -> rstrip_by p s = s.
Proof.
  induction s as [|c r IH]; simpl; [easy|].
  intros H. apply andb_true_iff in H as [Hc Hr].
  rewrite (IH Hr). apply negb_true_iff in Hc. rewrite Hc.
  destruct r; reflexivity.
Qed.

Lemma strip_by_id (p : ascii -> bool) (s : string) :
  all_chars (fun c => negb (p c)) s = true -> strip_by p s = s.
Proof.
  intros H. unfold strip_by.
  assert (Hl : lstrip_by p s = s).
  { destruct s as [|c r]; simpl; [easy|].
    simpl in H. apply andb_true_iff in H as [Hc _].
    apply negb_true_iff in Hc. now rewrite Hc. }
  rewrite Hl. now apply rstrip_by_id.
Qed.

Lemma lstrip_by_spec (p : ascii -> bool) (s : string) :
  exists a,
    s = a ++ lstrip_by p s /\ all_chars p a = true /\
    not_at p (first_char (lstrip_by p s)).
Proof.
  induction s as [|c r (a & Hs & Ha & Hf)]; simpl.
  - exists "". now repeat split.
  - destruct (p c) eqn:Hc.
    + exists (String c a). simpl. rewrite Hc, Ha. split; [now f_equal|]. now split.
    + exists "". simpl. now repeat split.
Qed.

Lemma rstrip_by_spec (p : ascii -> bool) (s : string) :
  exists b,
    s = rstrip_by p s ++ b /\ all_chars p b = true /\
    not_at p (last_char (rstrip_by p s)) /\
    (not_at p (first_char s) -> first_char (rstrip_by p s) = first_char s).
Proof.
  induction s as [|c r (b & Hs & Hb & Hl & _)]; simpl.
  - exists "". now repeat split.
  - destruct (rstrip_by p r) as [|c' r'] eqn:Hr.
    + simpl in Hs. subst b. destruct (p c) eqn:Hc.
      * exists (String c r). simpl. rewrite Hc, Hb. repeat split.
        intros H. congruence.
      * exists r. simpl. now repeat split.
    + exists b. simpl. split; [now rewrite Hs at 1|]. split; [exact Hb|].
      split; [|reflexivity]. exact Hl.
Qed.

(** [strip] takes away whitespace in front and behind, all of it: what
    is left neither starts nor ends with whitespace. *)
Lemma strip_by_spec (p : ascii -> bool) (s : string) :
  exists a b,
    s = a ++ strip_by p s ++ b /\
    all_chars p a = true /\ all_chars p b = true /\
    not_at p (first_char (strip_by p s)) /\
    not_at p (last_char (strip_by p s)).
Proof.
  unfold strip_by.
  destruct (lstrip_by_spec p s) as (a & Hs & Ha & Hf).
  destruct (rstrip_by_spec p (lstrip_by p s)) as (b & Hs' & Hb & Hl & Hk).
  exists a, b. split; [now rewrite <- Hs'|]. split; [exact Ha|].
  split; [exact Hb|]. split; [|exact Hl].
  now rewrite (Hk Hf).
Qed.

Lemma strip_no_space (s : string) :
  all_chars (fun c => negb (isspace c)) s = true -> strip s = s.
Proof. apply strip_by_id. Qed.

Lemma isspace_lower_char (c : ascii) : isspace (lower_char c) = isspace c.
Proof.
  destruct c as [[] [] [] [] [] [] [] []]; reflexivity.
Qed.

Lemma no_space_lower (s : string) :
  all_chars (fun c => negb (isspace c)) (lower s)
  = all_chars (fun c => negb (isspace c)) s.
Proof.
  induction s as [|c r IH]; simpl; [easy|].
  now rewrite isspace_lower_char, IH.
Qed.

(** A text whose lower-case form has no whitespace is left alone by
    [strip]: this is what makes a plain case variant of a keyword reach
    the comparison unchanged. *)
Lemma strip_lower_of_spelling (s w : string) :
  lower s = w ->
  all_chars (fun c => negb (isspace c)) w = true ->
  lower (strip s) = w.
Proof.
  intros Hl Hw. rewrite strip_no_space; [exact Hl|].
  rewrite <- no_space_lower, Hl. exact Hw.
Qed.

Lemma numeral_char_no_space (c : ascii) :
  numeral_char c = true ->
  negb (isspace c) = true /\ negb (isspace_int c) = true.
Proof.
  destruct c as [[] [] [] [] [] [] [] []]; simpl; intros H;
    first [split; reflexivity | discriminate H].
Qed.

Lemma is_digit_numeral_char (c : ascii) :
  is_digit c = true -> numeral_char c = true.
Proof.
  destruct c as [[] [] [] [] [] [] [] []]; simpl; intros H;
    first [reflexivity | discriminate H].
Qed.

Lemma digits_uint (d : Decimal.uint) :
  all_chars is_digit (NilEmpty.string_of_uint d) = true.
Proof.
  induction d; simpl; auto.
Qed.

Lemma N_to_uint_nonnil (n : N) : N.to_uint n <> Decimal.Nil.
Proof.
  destruct n as [|q]; simpl; [discriminate|]. apply Unsigned.to_uint_nonnil.
Qed.

(** The digits of an integer: digits only, at least one, and read back
    as the absolute value. *)
Lemma digits_of_Z_spec (z : Z) :
  all_chars is_digit (digits_of_Z z) = true /\
  digits_of_Z z <> EmptyString /\
  NilEmpty.uint_of_string (digits_of_Z z) = Some (N.to_uint (Z.abs_N z)).
Proof.
  unfold digits_of_Z. pose proof (N_to_uint_nonnil (Z.abs_N z)) as Hn.
  assert (He : NilZero.string_of_uint (N.to_uint (Z.abs_N z))
               = NilEmpty.string_of_uint (N.to_uint (Z.abs_N z))).
  { destruct (N.to_uint (Z.abs_N z)); [contradiction|reflexivity..]. }
  rewrite He. split; [apply digits_uint|]. split.
  - destruct (N.to_uint (Z.abs_N z)); [contradiction|discriminate..].
  - apply NilEmpty.usu.
Qed.

Lemma plain_digits_of_digits (d : string) :
  all_chars is_digit d = true ->
  plain_digits d true = Some d /\
  (d <> EmptyString -> plain_digits d false = Some d).
Proof.
  induction d as [|c r IH]; simpl; intros H.
  - split; [reflexivity|]. intros Hne. now contradiction Hne.
  - apply andb_true_iff in H as [Hc Hr]. rewrite Hc.
    destruct (IH Hr) as [IH1 _]. rewrite IH1. split; [reflexivity|]. reflexivity.
Qed.

Lemma Z_of_uint_of_N (n : N) : Z.of_uint (N.to_uint n) = Z.of_N n.
Proof.
  unfold Z.of_uint. f_equal. apply DecimalN.Unsigned.of_to.
Qed.

(** What [str()] writes for an integer: the digits, after a minus sign
    for a negative one, with no more than [max_str_digits] digits. *)
Lemma str_of_Z_Some (z : Z) (t : string) :
  str_of_Z z = Some t ->
  t = (if z <? 0 then String "-" (digits_of_Z z) else digits_of_Z z) /\
  Nat.ltb max_str_digits (String.length (digits_of_Z z)) = false.
Proof.
  unfold str_of_Z.
  destruct (Nat.ltb max_str_digits (String.length (digits_of_Z z)));
    [discriminate|]. intros [= <-]. now split.
Qed.

Lemma numeral_chars_str_of_Z (z : Z) (t : string) :
  str_of_Z z = Some t -> all_chars numeral_char t = true /\ t <> EmptyString.
Proof.
  intros H. apply str_of_Z_Some in H as [-> _].
  destruct (digits_of_Z_spec z) as (Hd & Hne & _).
  apply (all_chars_impl _ _ _ is_digit_numeral_char) in Hd.
  destruct (z <? 0); simpl; [now rewrite Hd|]. now split.
Qed.

Lemma strip_str_of_Z (z : Z) (t : string) :
  str_of_Z z = Some t -> strip t = t /\ strip_by isspace_int t = t.
Proof.
  intros H. apply numeral_chars_str_of_Z in H as [H _].
  split; apply strip_by_id;
    apply (all_chars_impl numeral_char); try exact H;
    intros c Hc; now apply numeral_char_no_space in Hc.
Qed.

Lemma unsigned_of_digits_of_Z (z : Z) :
  Nat.ltb max_str_digits (String.length (digits_of_Z z)) = false ->
  unsigned_of_str (digits_of_Z z) = Some (Z.abs z).
Proof.
  intros Hlen. unfold unsigned_of_str.
  destruct (digits_of_Z_spec z) as (Hd & Hne & Hu).
  destruct (plain_digits_of_digits _ Hd) as [_ Hp].
  rewrite (Hp Hne), Hlen, Hu. simpl. f_equal.
  rewrite Z_of_uint_of_N. now rewrite N2Z.inj_abs_N.
Qed.

Lemma length_string_of_uint (u : Decimal.uint) :
  String.length (NilEmpty.string_of_uint u) = Decimal.nb_digits u.
Proof.
  induction u; simpl; auto.
Qed.

(** A numeral that [int()] reads denotes a number with no more digits
    than the numeral has. *)
Lemma unsigned_of_str_digits (s : string) (z : Z) :
  unsigned_of_str s = Some z ->
  Nat.ltb max_str_digits (String.length (digits_of_Z z)) = false.
Proof.
  unfold unsigned_of_str.
  destruct (plain_digits s false) as [d|]; [|discriminate].
  destruct (Nat.ltb max_str_digits (String.length d)) eqn:Hlen; [discriminate|].
  destruct (NilEmpty.uint_of_string d) as [u|] eqn:Hu; [|discriminate].
  simpl. intros [= <-].
  apply NilEmpty.sus in Hu. subst d. rewrite length_string_of_uint in Hlen.
  unfold digits_of_Z, Z.of_uint. rewrite Zabs2N.id.
  rewrite DecimalN.Unsigned.to_of.
  assert (Hn : Decimal.unorm u <> Decimal.Nil).
  { rewrite <- DecimalN.Unsigned.to_of. apply N_to_uint_nonnil. }
  assert (He : NilZero.string_of_uint (Decimal.unorm u)
               = NilEmpty.string_of_uint (Decimal.unorm u)).
  { destruct (Decimal.unorm u); [contradiction|reflexivity..]. }
  rewrite He, length_string_of_uint.
  destruct u as [|u|u|u|u|u|u|u|u|u|u]; [reflexivity|..];
    (apply Nat.ltb_ge; apply Nat.ltb_ge in Hlen;
     etransitivity; [apply DecimalFacts.nb_digits_unorm; discriminate|exact Hlen]).
Qed.

(** [str(int(t))] exists whenever [int(t)] does. *)
Lemma str_of_Z_of_str (t : string) (z : Z) :
  Z_of_str t = Some z -> exists c, str_of_Z z = Some c.
Proof.
  intros H.
  assert (Hlen : Nat.ltb max_str_digits (String.length (digits_of_Z z)) = false).
  { unfold Z_of_str in H.
    destruct (strip_by isspace_int t) as [|c r]; [discriminate|].
    destruct (Ascii.eqb c "+"); [exact (unsigned_of_str_digits _ _ H)|].
    destruct (Ascii.eqb c "-"); [|exact (unsigned_of_str_digits _ _ H)].
    destruct (unsigned_of_str r) as [y|] eqn:Hy; [|discriminate].
    simpl in H. injection H as <-.
    apply unsigned_of_str_digits in Hy.
    unfold digits_of_Z in *. now rewrite Zabs2N.inj_opp. }
  unfold str_of_Z. rewrite Hlen. eauto.
Qed.

(** [int(str(z)) == z] whenever [str(z)] exists. *)
Lemma Z_of_str_of_Z (z : Z) (t : string) :
  str_of_Z z = Some t -> Z_of_str t = Some z.
Proof.
  intros H. unfold Z_of_str.
  destruct (strip_str_of_Z z t H) as [_ Hs]. rewrite Hs.
  apply str_of_Z_Some in H as [-> Hlen].
  pose proof (unsigned_of_digits_of_Z z Hlen) as Hu.
  destruct (digits_of_Z_spec z) as (Hd & Hne & _).
  destruct (Z.ltb_spec z 0) as [Hneg|Hpos].
  - simpl. rewrite Hu. simpl. f_equal. lia.
  - destruct (digits_of_Z z) as [|c r] eqn:Hdz; [now contradiction Hne|].
    simpl in Hd. apply andb_true_iff in Hd as [Hc _].
    assert (Hplus : Ascii.eqb c "+" = false /\ Ascii.eqb c "-" = false).
    { revert Hc. clear. destruct c as [[] [] [] [] [] [] [] []]; simpl; intros H;
        first [split; reflexivity | discriminate H]. }
    destruct Hplus as [-> ->]. rewrite Hu. f_equal. lia.
Qed.


(* ================================================================== *)
(** ** 6. Lemmas on [set] and the notification loop *)

Local Open Scope list_scope.

Section MachineLemmas.
Context {W : Type} (E : externals).
Implicit Types (m : machine W) (obs : list (callback W)) (v x : pyval).

(** [set] is validation, then the assignment, then the loop. *)
Lemma Setting_set_unfold m v :
  Setting_set W E v m =
  match convertTo W E (obj m) v with
  | Ok x => notify (onmodified (obj m)) (stored x m)
  | Raise e => (Raise e, m)
  end.
Proof.
  unfold Setting_set, bind, read_self, lift, write_self, notify, stored.
  destruct (convertTo W E (obj m) v); reflexivity.
Qed.

Lemma notify_cons i obs m :
  notify (i :: obs) m =
  match call W i true m with
  | (Ok _, m1) => notify obs m1
  | (Raise e, m1) => (Raise e, m1)
  end.
Proof. reflexivity. Qed.

Lemma call_obj i b m : obj (snd (call W i b m)) = obj m.
Proof. unfold call. destruct (cb_call i b (heap m)); reflexivity. Qed.

Lemma call_calls i b m :
  calls (snd (call W i b m)) = calls m ++ [(cb_id i, b)].
Proof. unfold call. destruct (cb_call i b (heap m)); reflexivity. Qed.

Lemma call_result i b m : fst (call W i b m) = fst (cb_call i b (heap m)).
Proof. unfold call. destruct (cb_call i b (heap m)); reflexivity. Qed.

(** The loop never touches the object. *)
Lemma notify_obj obs : forall m, obj (snd (notify obs m)) = obj m.
Proof.
  induction obs as [|i obs IH]; intros m; [reflexivity|].
  rewrite notify_cons. pose proof (call_obj i true m) as Hc.
  destruct (call W i true m) as [[[]|e] m1]; simpl in Hc.
  - rewrite IH. exact Hc.
  - exact Hc.
Qed.

(** A loop that returns has called every function once, in order. *)
Lemma notify_returns obs : forall m m',
  notify obs m = (Ok tt, m') ->
  calls m' = calls m ++ map (fun i => (cb_id i, true)) obs.
Proof.
  induction obs as [|i obs IH]; intros m m' H.
  - injection H as <-. simpl. now rewrite app_nil_r.
  - rewrite notify_cons in H. pose proof (call_calls i true m) as Hc.
    destruct (call W i true m) as [[[]|e] m1]; simpl in Hc; [|discriminate H].
    rewrite (IH _ _ H), Hc. simpl. now rewrite <- app_assoc.
Qed.

(** A loop over functions that do not raise returns. *)
Lemma notify_quiet obs :
  (forall i h, In i obs -> fst (cb_call i true h) = Ok tt) ->
  forall m, fst (notify obs m) = Ok tt.
Proof.
  induction obs as [|i obs IH]; intros Hq m; [reflexivity|].
  rewrite notify_cons. pose proof (call_result i true m) as Hc.
  rewrite (Hq i (heap m) (or_introl eq_refl)) in Hc.
  destruct (call W i true m) as [[[]|e] m1]; simpl in Hc; [|discriminate Hc].
  apply IH. intros j h Hj. apply Hq. now right.
Qed.

(** [get()] is [convertFrom] of the stored value once there is one. *)
Lemma Setting_get_result m :
  fst (Setting_get W m) =
  match val (obj m) with
  | Some x => Ok (convertFrom W (obj m) x)
  | None => Raise AttributeError
  end.
Proof.
  unfold Setting_get, bind, read_self, lift, self_val, ret.
  destruct (val (obj m)); reflexivity.
Qed.

(** Validation reads the class and, for [Choice], the list of values;
    the default plays no part in it. *)
Lemma convertTo_set_default (s : setting W) d v :
  convertTo W E (set_default W d s) v = convertTo W E s v.
Proof. reflexivity. Qed.

Lemma accepts_of_convertTo m v x :
  convertTo W E (obj m) v = Ok x -> accepts E m v x.
Proof.
  intros Hc. unfold accepts. rewrite Setting_set_unfold, Hc.
  repeat split.
  - now rewrite notify_obj.
  - intros Hq. apply notify_quiet. exact Hq.
Qed.

Lemma rejects_of_convertTo m v :
  convertTo W E (obj m) v = Raise InvalidType -> rejects E m v.
Proof.
  intros Hc. unfold rejects. now rewrite Setting_set_unfold, Hc.
Qed.
End MachineLemmas.

(* ================================================================== *)
(** ** 7. Properties of [Setting.set], [setOnModified] and [newDefault] *)

Section SetProperties.
Context {W : Type} (E : externals).
Implicit Types (m : machine W) (v x : pyval).

(** C1.  In every class, when [convertTo] rejects the value passed to
    [set], the call raises [InvalidType] and the state it leaves is the
    state it found: [val] and therefore [get()] are unchanged and the
    call log has no new entry, so no registered function was called. *)
Theorem set_invalid_raises_and_changes_nothing m v :
  convertTo W E (obj m) v = Raise InvalidType ->
  let out := Setting_set W E v m in
  fst out = Raise InvalidType /\
  val (obj (snd out)) = val (obj m) /\
  fst (Setting_get W (snd out)) = fst (Setting_get W m) /\
  calls (snd out) = calls m /\
  snd out = m.
Proof.
  intros Hc out. subst out. rewrite Setting_set_unfold, Hc. simpl.
  repeat split.
Qed.


(** C10.  When [newDefault] is given a value that [convertTo] rejects,
    [InvalidType] comes out of the inner [set] after [default] has been
    assigned: afterwards [default] is the rejected value while [val] and
    [get()] are what they were, and no function was called. *)
Theorem newDefault_invalid_keeps_the_new_default m v :
  convertTo W E (obj m) v = Raise InvalidType ->
  let out := Setting_newDefault W E v m in
  fst out = Raise InvalidType /\
  default (obj (snd out)) = v /\
  val (obj (snd out)) = val (obj m) /\
  fst (Setting_get W (snd out)) = fst (Setting_get W m) /\
  calls (snd out) = calls m /\
  snd out = {| obj := set_default W v (obj m); heap := heap m; calls := calls m |}.
Proof.
  intros Hc out. subst out.
  unfold Setting_newDefault, bind, write_self.
  rewrite Setting_set_unfold. simpl obj.
  rewrite convertTo_set_default, Hc. simpl.
  repeat split. now rewrite !Setting_get_result.
Qed.
End SetProperties.

(* ================================================================== *)
(** ** 8. Properties of the classes *)



(** Membership in a list of texts is equality with one of them. *)
Lemma py_in_texts (v : pyval) (l : list string) :
  py_in v (map VStr l) = true <-> exists s, v = VStr s /\ In s l.
Proof.
  unfold py_in. rewrite existsb_exists. split.
  - intros [w [Hw He]]. apply in_map_iff in Hw as [s [<- Hs]].
    destruct v; simpl in He; try discriminate He.
    apply String.eqb_eq in He. subst. now exists s.
  - intros [s [-> Hs]]. exists (VStr s). split.
    + now apply in_map.
    + simpl. apply String.eqb_refl.
Qed.

Section ClassProperties.
Context {W : Type} (E : externals).
Implicit Types (m : machine W) (v x : pyval).

Lemma Setting_set_obj m v x :
  convertTo W E (obj m) v = Ok x ->
  obj (snd (Setting_set W E v m)) = set_val W x (obj m).
Proof.
  intros Hc. rewrite Setting_set_unfold, Hc. now rewrite notify_obj.
Qed.

(** What [get()] and [isDefault()] return right after [newDefault(v)]
    got through: [isDefault()] compares the external form of what was
    stored with the argument as it was passed. *)
Lemma isDefault_after_newDefault m v x :
  convertTo W E (obj m) v = Ok x ->
  fst (Setting_isDefault W (snd (Setting_newDefault W E v m)))
  = Ok (py_eq (convertFrom W (obj m) x) v).
Proof.
  intros Hc.
  assert (Ho : obj (snd (Setting_newDefault W E v m))
               = set_val W x (set_default W v (obj m))).
  { unfold Setting_newDefault, bind, write_self.
    apply (Setting_set_obj {| obj := set_default W v (obj m);
                              heap := heap m; calls := calls m |}).
    exact Hc. }
  unfold Setting_isDefault, bind, read_self, ret.
  pose proof (Setting_get_result (snd (Setting_newDefault W E v m))) as Hg.
  destruct (Setting_get W (snd (Setting_newDefault W E v m))) as [r m1] eqn:Hr.
  assert (Hm : m1 = snd (Setting_newDefault W E v m)).
  { revert Hr. unfold Setting_get, bind, read_self, lift, ret.
    destruct (self_val W _); intros [= _ <-]; reflexivity. }
  simpl in Hg. rewrite Ho in Hg. simpl in Hg. subst r m1.
  rewrite Ho. reflexivity.
Qed.

(** The same right after construction: the object exists when
    [convertTo] took the initial value, and [isDefault()] then compares
    the external form of what was stored with the initial value as it was
    passed. *)
Lemma isDefault_after_new c nm vl v im d h s h' :
  new W E c nm vl v im d h = (Ok s, h') ->
  exists x,
    convertTo W E s v = Ok x /\ val s = Some x /\ default s = v /\
    forall hh cs,
      fst (Setting_isDefault W {| obj := s; heap := hh; calls := cs |})
      = Ok (py_eq (convertFrom W s x) v).
Proof.
  unfold new. intros H.
  assert (Hs : exists s0,
            class_ s0 = c /\ default s0 = v /\ onmodified s0 = [] /\
            match Setting_set W E v {| obj := s0; heap := h; calls := [] |} with
            | (Ok _, m) => (Ok (obj m), heap m)
            | (Raise e, m) => (Raise e, heap m)
            end = (Ok s, h')).
  { exists (set_onmodified W [] (set_default W v (set_descr W d (set_name W nm
              match c with
              | Choice | ChoiceOrMore => set_images W im (set_vallist W vl (blank W c))
              | _ => blank W c
              end)))).
    destruct c; (split; [|split; [|split]]; [reflexivity .. | exact H]). }
  clear H. destruct Hs as (s0 & Hk & Hd & Hobs & H).
  rewrite Setting_set_unfold in H. simpl obj in H. rewrite Hobs in H.
  destruct (convertTo W E s0 v) as [x|e] eqn:Hc; [|discriminate H].
  simpl in H. injection H as <- <-.
  exists x. split; [exact Hc|]. split; [reflexivity|]. split; [exact Hd|].
  intros hh cs. unfold Setting_isDefault, Setting_get, bind, read_self, lift, ret.
  simpl. now rewrite Hd.
Qed.

Lemma isDefault_result m :
  fst (Setting_isDefault W m) =
  match val (obj m) with
  | Some x => Ok (py_eq (convertFrom W (obj m) x) (default (obj m)))
  | None => Raise AttributeError
  end.
Proof.
  unfold Setting_isDefault, Setting_get, bind, read_self, lift, self_val, ret.
  destruct (val (obj m)); reflexivity.
Qed.

(** [v == v] holds for every value but a NaN. *)
Lemma py_eq_same v :
  py_eq v v = match v with VFloat f => negb (is_nan f) | _ => true end.
Proof.
  destruct v as [|b|z|f|t|i]; simpl.
  - reflexivity.
  - apply Z.eqb_refl.
  - apply Z.eqb_refl.
  - unfold is_nan. now rewrite negb_involutive.
  - apply String.eqb_refl.
  - apply Nat.eqb_refl.
Qed.

Lemma Bool_of_int_equals_int (z : Z) :
  (Z_of_bool (negb (z =? 0)) =? z) = ((z =? 0) || (z =? 1))%bool.
Proof.
  destruct (Z.eqb_spec z 0) as [->|H0]; [reflexivity|].
  destruct (Z.eqb_spec z 1) as [->|H1]; [reflexivity|].
  cbn [negb Z_of_bool orb]. apply Z.eqb_neq. lia.
Qed.

(** C4, as the code has it.  [default] is the argument of the
    constructor or of [newDefault] exactly as it was passed; it is not
    converted.  Right after the construction with an accepted value [v],
    and right after [newDefault(v)] for an accepted [v], [isDefault()]
    compares the external form of what was stored with [v], and answers:
    [True] in the classes that store [v] as given ([Str], [Int],
    [Distance], [Choice], [ChoiceOrMore]; [False] only for a NaN);
    for [Bool], [True] for a boolean and for the integers 0 and 1,
    [False] for any other integer; for [IntOrAuto] and [FloatOrAuto],
    [True] for the text "Auto" and [False] for any other spelling of it;
    for [IntOrAuto], [True] for an integer; for [Float] and
    [FloatOrAuto], [True] for a float other than NaN, and for an integer
    [z] whether [float(z) == z]. *)
Theorem isDefault_right_after_construction_or_newDefault :
  (forall c nm vl v im d h s h' hh cs,
     new W E c nm vl v im d h = (Ok s, h') ->
     at_default E {| obj := s; heap := hh; calls := cs |} v) /\
  (forall m v x,
     convertTo W E (obj m) v = Ok x ->
     at_default E (snd (Setting_newDefault W E v m)) v) /\
  (forall m v,
     at_default E m v ->
     let answer := fst (Setting_isDefault W m) in
     (exists x, convertTo W E (obj m) v = Ok x /\
                answer = Ok (py_eq (convertFrom W (obj m) x) v)) /\
     (In (class_ (obj m)) [Str; Int; Distance; Choice; ChoiceOrMore] ->
        answer = Ok (match v with VFloat f => negb (is_nan f) | _ => true end)) /\
     (class_ (obj m) = Bool ->
        answer = Ok (match v with
                     | VInt z => (z =? 0) || (z =? 1)
                     | _ => true
                     end)%bool) /\
     (class_ (obj m) = IntOrAuto \/ class_ (obj m) = FloatOrAuto ->
        forall t, v = VStr t -> answer = Ok (String.eqb "Auto" t)) /\
     (class_ (obj m) = IntOrAuto ->
        forall z, v = VInt z -> answer = Ok true) /\
     (class_ (obj m) = Float \/ class_ (obj m) = FloatOrAuto ->
        (forall f, v = VFloat f -> answer = Ok (negb (is_nan f))) /\
        (forall z, v = VInt z ->
           exists f, float_of_Z z = Ok f /\ answer = Ok (float_eqb_Z f z)))).
Proof.
  split; [|split].
  - intros c nm vl v im d h s h' hh cs H.
    apply isDefault_after_new in H as (x & Hc & Hv & Hd & _).
    split; [exact Hd|]. exists x. now split.
  - intros m v x Hc. unfold at_default.
    assert (Ho : obj (snd (Setting_newDefault W E v m))
                 = set_val W x (set_default W v (obj m))).
    { unfold Setting_newDefault, bind, write_self.
      now rewrite (Setting_set_obj {| obj := set_default W v (obj m);
                                      heap := heap m; calls := calls m |} v x Hc). }
    rewrite Ho. split; [reflexivity|]. exists x. split; [exact Hc|reflexivity].
  - intros m v (Hd & x & Hc & Hv) answer.
    assert (Ha : answer = Ok (py_eq (convertFrom W (obj m) x) v)).
    { subst answer. now rewrite isDefault_result, Hv, Hd. }
    split; [exists x; now split|].
    unfold convertTo in Hc. unfold convertFrom in Ha.
    split; [|split; [|split; [|split]]].
    + intros Hin.
      assert (Hx : x = v /\ Setting_convertFrom x = convertFrom W (obj m) x).
      { unfold convertFrom. simpl in Hin.
        destruct Hin as [Hk|[Hk|[Hk|[Hk|[Hk|[]]]]]]; rewrite <- Hk in Hc |- *.
        - unfold Str_convertTo in Hc.
          destruct (pytype_eqb (type v) str_t); [|discriminate Hc].
          injection Hc as <-. now split.
        - unfold Int_convertTo in Hc.
          destruct (pytype_eqb (type v) int_t); [|discriminate Hc].
          injection Hc as <-. now split.
        - unfold Distance_convertTo in Hc.
          destruct (isDist E v) as [[|]|]; simpl in Hc; try discriminate Hc.
          injection Hc as <-. now split.
        - unfold Choice_convertTo in Hc.
          destruct (py_in v (vallist (obj m))); [|discriminate Hc].
          injection Hc as <-. now split.
        - injection Hc as <-. now split. }
      destruct Hx as [-> Hx]. unfold convertFrom in Hx. rewrite <- Hx in Ha.
      unfold Setting_convertFrom in Ha. now rewrite py_eq_same in Ha.
    + intros Hk. rewrite Hk in Hc, Ha. unfold Bool_convertTo in Hc.
      unfold Setting_convertFrom in Ha.
      destruct v as [|b|z|f|t|i]; simpl in Hc; try discriminate Hc;
        injection Hc as <-; rewrite Ha; simpl.
      * now rewrite Z.eqb_refl.
      * now rewrite Bool_of_int_equals_int.
    + intros Hk t ->.
      assert (Hx : x = VNone).
      { destruct Hk as [Hk|Hk]; rewrite Hk in Hc;
          unfold IntOrAuto_convertTo, FloatOrAuto_convertTo in Hc; simpl in Hc;
          (destruct (String.eqb (lower (strip t)) "auto"); [|discriminate Hc]);
          now injection Hc. }
      subst x. rewrite Ha. destruct Hk as [Hk|Hk]; rewrite Hk; reflexivity.
    + intros Hk z ->. rewrite Hk in Hc, Ha. injection Hc as <-.
      rewrite Ha. simpl. now rewrite Z.eqb_refl.
    + intros Hk. split.
      * intros f ->.
        assert (Hx : x = VFloat f).
        { destruct Hk as [Hk|Hk]; rewrite Hk in Hc; now injection Hc. }
        subst x. rewrite Ha.
        replace (match class_ (obj m) with
                 | FloatOrAuto => FloatOrAuto_convertFrom (VFloat f)
                 | IntOrAuto => IntOrAuto_convertFrom (VFloat f)
                 | _ => Setting_convertFrom (VFloat f)
                 end) with (VFloat f)
          by (destruct Hk as [Hk|Hk]; rewrite Hk; reflexivity).
        now rewrite py_eq_same.
      * intros z ->.
        assert (Hx : exists f, float_of_Z z = Ok f /\ x = VFloat f).
        { destruct Hk as [Hk|Hk]; rewrite Hk in Hc;
            unfold Float_convertTo, FloatOrAuto_convertTo in Hc; simpl in Hc;
            (destruct (float_of_Z z) as [f|e]; simpl in Hc; [|discriminate Hc]);
            injection Hc as <-; now exists f. }
        destruct Hx as (f & Hf & ->). exists f. split; [exact Hf|].
        rewrite Ha.
        replace (match class_ (obj m) with
                 | FloatOrAuto => FloatOrAuto_convertFrom (VFloat f)
                 | IntOrAuto => IntOrAuto_convertFrom (VFloat f)
                 | _ => Setting_convertFrom (VFloat f)
                 end) with (VFloat f)
          by (destruct Hk as [Hk|Hk]; rewrite Hk; reflexivity).
        reflexivity.
Qed.

(** C5, as the code has it.  On a [FloatOrAuto] setting: [set] of a
    case variant of "auto" stores the sentinel [None], after which
    [get()] and [toText()] both give the text "Auto"; [set] of a float
    stores it and [get()] returns it; [set] of an integer below
    [float_int_limit] in absolute value stores the float it converts to
    and [get()] returns that float, while [set] of a larger integer
    raises [OverflowError] and changes nothing. *)
Theorem FloatOrAuto_set_auto_and_numbers m v :
  class_ (obj m) = FloatOrAuto ->
  let m' := snd (Setting_set W E v m) in
  (forall s, v = VStr s -> lower s = "auto" ->
     accepts E m v VNone /\
     fst (Setting_get W m') = Ok (VStr "Auto") /\
     toText W E (obj m') = Ok (VStr "Auto")) /\
  (forall f, v = VFloat f ->
     accepts E m v (VFloat f) /\
     fst (Setting_get W m') = Ok (VFloat f)) /\
  (forall z, v = VInt z ->
     if Z.abs z <? float_int_limit
     then exists f,
            float_of_Z z = Ok f /\
            accepts E m v (VFloat f) /\
            fst (Setting_get W m') = Ok (VFloat f)
     else Setting_set W E v m = (Raise OverflowError, m)).
Proof.
  intros Hk m'.
  assert (Hafter : forall x, convertTo W E (obj m) v = Ok x ->
            accepts E m v x /\
            fst (Setting_get W m') = Ok (convertFrom W (obj m) x) /\
            toText W E (obj m') = toText W E (set_val W x (obj m))).
  { intros x Hc. split; [now apply accepts_of_convertTo|].
    subst m'. rewrite Setting_get_result, (Setting_set_obj _ _ _ Hc).
    split; reflexivity. }
  split; [|split].
  - intros s -> Hl.
    assert (Hc : convertTo W E (obj m) (VStr s) = Ok VNone).
    { unfold convertTo, FloatOrAuto_convertTo, is_auto_text.
      rewrite Hk. simpl. now rewrite (strip_lower_of_spelling s "auto"). }
    destruct (Hafter _ Hc) as (Ha & Hg & Ht).
    split; [exact Ha|]. split.
    + rewrite Hg. unfold convertFrom. now rewrite Hk.
    + rewrite Ht. unfold toText. simpl. now rewrite Hk.
  - intros f ->.
    assert (Hc : convertTo W E (obj m) (VFloat f) = Ok (VFloat f)).
    { unfold convertTo. now rewrite Hk. }
    destruct (Hafter _ Hc) as (Ha & Hg & _).
    split; [exact Ha|].
    rewrite Hg. unfold convertFrom. now rewrite Hk.
  - intros z ->.
    assert (Hto : convertTo W E (obj m) (VInt z)
                  = rbind (float_of_Z z) (fun f => Ok (VFloat f))).
    { unfold convertTo. now rewrite Hk. }
    unfold float_of_Z in *.
    destruct (Z.abs z <? float_int_limit).
    + eexists. split; [reflexivity|]. simpl in Hto.
      destruct (Hafter _ Hto) as (Ha & Hg & _).
      split; [exact Ha|].
      rewrite Hg. unfold convertFrom. now rewrite Hk.
    + simpl in Hto. now rewrite Setting_set_unfold, Hto.
Qed.

(** C6, as the code has it.  On a [Bool] setting, [set] accepts exactly
    the values of type [bool] and of type [int] and stores [bool(v)]:
    the boolean itself, [False] for the integer 0 and [True] for every
    other integer.  A value of any other type is rejected with
    [InvalidType]. *)
Theorem Bool_set_accepts_bool_and_every_int m v :
  class_ (obj m) = Bool ->
  match v with
  | VBool b => accepts E m v (VBool b)
  | VInt z => accepts E m v (VBool (negb (z =? 0)))
  | VNone | VFloat _ | VStr _ | VObj _ => rejects E m v
  end.
Proof.
  intros Hk.
  destruct v;
    first [ apply accepts_of_convertTo | apply rejects_of_convertTo ];
    unfold convertTo; rewrite Hk; reflexivity.
Qed.

(** C8.  On a [Choice] setting whose [vallist] is a list of texts,
    [set(v)] passes validation, and [fromText(v)] returns, if and only if
    [v] is one of those texts, character for character; for any other [v]
    both raise [InvalidType] and the state is as before. *)
Theorem Choice_set_and_fromText_accept_exactly_members m (l : list string) v :
  class_ (obj m) = Choice ->
  vallist (obj m) = map VStr l ->
  let member := exists s, v = VStr s /\ In s l in
  (accepts E m v v <-> member) /\
  (call_fromText W E v m = (Ok v, m) <-> member) /\
  (~ member ->
     rejects E m v /\ call_fromText W E v m = (Raise InvalidType, m)).
Proof.
  intros Hk Hl member.
  assert (Hto : convertTo W E (obj m) v
                = if py_in v (map VStr l) then Ok v else Raise InvalidType).
  { unfold convertTo, Choice_convertTo. now rewrite Hk, Hl. }
  assert (Hfrom : call_fromText W E v m
                = (if py_in v (map VStr l) then Ok v else Raise InvalidType, m)).
  { unfold call_fromText, bind, read_self, lift, fromText, Choice_fromText.
    now rewrite Hk, Hl. }
  pose proof (py_in_texts v l) as Hin. fold member in Hin.
  destruct (py_in v (map VStr l)).
  - assert (Hm : member) by now apply Hin.
    split; [|split].
    + split; [intros _; exact Hm | intros _; now apply accepts_of_convertTo].
    + split; [intros _; exact Hm | intros _; exact Hfrom].
    + intros Hn. contradiction.
  - assert (Hn : ~ member) by (intros Hm; apply Hin in Hm; discriminate Hm).
    split; [|split].
    + split; [intros [Ha _]; congruence | intros Hm; contradiction].
    + split; [intros Hf; congruence | intros Hm; contradiction].
    + intros _. split; [now apply rejects_of_convertTo | exact Hfrom].
Qed.

(** C9.  On a [ChoiceOrMore] setting nothing is rejected: [set(v)]
    passes validation and stores [v] whatever [vallist] holds, and
    [fromText(v)] returns [v] and raises nothing. *)
Theorem ChoiceOrMore_never_rejects m v :
  class_ (obj m) = ChoiceOrMore ->
  accepts E m v v /\
  ~ rejects E m v /\
  call_fromText W E v m = (Ok v, m) /\
  fromText W E (obj m) v = Ok v.
Proof.
  intros Hk.
  assert (Hto : convertTo W E (obj m) v = Ok v).
  { unfold convertTo. now rewrite Hk. }
  assert (Hfrom : fromText W E (obj m) v = Ok v).
  { unfold fromText. now rewrite Hk. }
  split; [now apply accepts_of_convertTo|].
  split; [intros [Hr _]; congruence|].
  split; [|exact Hfrom].
  unfold call_fromText, bind, read_self, lift. now rewrite Hfrom.
Qed.


End ClassProperties.


(* ================================================================== *)
(** ** 9. Worked examples *)

(** The example objects are what the constructors and [setOnModified]
    produce. *)
Example flag_is_constructed :
  exists s0,
    new nat example_externals Bool "flag" [] (VBool true) [] "" 0%nat = (Ok s0, 0%nat) /\
    obj (snd (bind nat (Setting_setOnModified nat (tick 1))
                (fun _ => Setting_setOnModified nat (tick 2)) (fresh s0))) = flag.
Proof. eexists. split; reflexivity. Qed.

Example minimum_is_constructed :
  exists s0,
    new nat example_externals FloatOrAuto "min" [] (VStr "Auto") [] "" 0%nat
      = (Ok s0, 0%nat) /\
    obj (snd (Setting_setOnModified nat (tick 1) (fresh s0))) = minimum.
Proof. eexists. split; reflexivity. Qed.

Example style_is_constructed :
  new nat example_externals Choice "style" [VStr "a"; VStr "b"] (VStr "a") [] "" 0%nat
    = (Ok (style Choice), 0%nat) /\
  new nat example_externals ChoiceOrMore "style" [VStr "a"; VStr "b"] (VStr "a") [] "" 0%nat
    = (Ok (style ChoiceOrMore), 0%nat).
Proof. split; reflexivity. Qed.

Example level_is_constructed :
  exists s0,
    new nat example_externals FloatOrAuto "level" [] (VFloat 2.5) [] "" 0%nat
      = (Ok s0, 0%nat) /\
    obj (snd (Setting_setOnModified nat (tick 1) (fresh s0))) = level.
Proof. eexists. split; reflexivity. Qed.

(** [int()] on texts: surrounding whitespace, a sign, single underscores
    between digits. *)
Example Z_of_str_examples :
  Z_of_str " 42 " = Some 42 /\ Z_of_str "-007" = Some (-7) /\
  Z_of_str "+5" = Some 5 /\ Z_of_str "+-5" = None /\ Z_of_str "" = None /\
  Z_of_str "4 2" = None /\ Z_of_str "Auto" = None /\
  Z_of_str "1_000" = Some 1000 /\ Z_of_str "1__0" = None /\
  Z_of_str "_1" = None /\ Z_of_str "1_" = None /\ Z_of_str "- 1" = None /\
  Z_of_str (String (ascii_of_nat 160) "7") = Some 7 /\
  Z_of_str (String (ascii_of_nat 31) "7") = None.
Proof. repeat split. Qed.

(** [str()] on integers, and its limit of [max_str_digits] digits. *)
Example str_of_Z_examples :
  str_of_Z (-120) = Some "-120" /\ str_of_Z 0 = Some "0" /\
  str_of_Z (10 ^ 4300 - 1) <> None /\
  str_of_Z (10 ^ 4300) = None /\ str_of_Z (- 10 ^ 4300) = None.
Proof.
  split; [reflexivity|]. split; [reflexivity|].
  split; [now vm_compute|]. split; now vm_compute.
Qed.

(** [strip()] and [lower()] on texts. *)
Example strip_lower_examples :
  strip " Yes " = "Yes" /\
  strip (String (ascii_of_nat 31) "yes") = "yes" /\
  strip (String (ascii_of_nat 133) (String (ascii_of_nat 160) "auto")) = "auto" /\
  strip "a b" = "a b" /\
  lower "AuTo" = "auto" /\
  lower (String (ascii_of_nat 201) "") = String (ascii_of_nat 233) "" /\
  lower (String (ascii_of_nat 215) "") = String (ascii_of_nat 215) "".
Proof. repeat split. Qed.

Example float_of_Z_examples :
  float_of_Z 3 = Ok 3%float /\
  float_of_Z 9007199254740993 = Ok 9007199254740992%float /\
  float_of_Z (float_int_limit - 1) = Ok 0x1.fffffffffffffp+1023%float /\
  float_of_Z float_int_limit = Raise OverflowError /\
  float_of_Z (2 ^ 1024) = Raise OverflowError.
Proof. repeat split. Qed.

(** C1 at work: [flag.set('maybe')]. *)
Lemma set_invalid_on_flag :
  convertTo nat example_externals (obj (fresh flag)) (VStr "maybe") = Raise InvalidType /\
  snd (Setting_set nat example_externals (VStr "maybe") (fresh flag)) = fresh flag.
Proof.
  split; [reflexivity|].
  apply (set_invalid_raises_and_changes_nothing
           example_externals (fresh flag) (VStr "maybe") eq_refl).
Defined.


(** C10 at work: [flag.newDefault('maybe')]. *)
Lemma newDefault_invalid_on_flag :
  convertTo nat example_externals (obj (fresh flag)) (VStr "maybe") = Raise InvalidType /\
  default (obj (snd (Setting_newDefault nat example_externals (VStr "maybe") (fresh flag))))
    = VStr "maybe" /\
  val (obj (snd (Setting_newDefault nat example_externals (VStr "maybe") (fresh flag))))
    = val (obj (fresh flag)).
Proof.
  split; [reflexivity|].
  pose proof (newDefault_invalid_keeps_the_new_default
                example_externals (fresh flag) (VStr "maybe") eq_refl) as H.
  split; [apply H | apply H].
Defined.

(** C5 at work, on [level], which holds 2.5: [level.set('AUTO')] stores
    the sentinel, calls [tick 1], and [get()] and [toText()] give "Auto";
    [level.set(3)] stores the float 3.0 and [level.set(0.5)] stores 0.5. *)
Lemma set_auto_and_numbers_on_level :
  class_ (obj (fresh level)) = FloatOrAuto /\
  val (obj (fresh level)) = Some (VFloat 2.5) /\
  (lower "AUTO" = "auto" /\
   accepts example_externals (fresh level) (VStr "AUTO") VNone /\
   fst (Setting_get nat (snd (Setting_set nat example_externals (VStr "AUTO") (fresh level))))
     = Ok (VStr "Auto") /\
   toText nat example_externals
     (obj (snd (Setting_set nat example_externals (VStr "AUTO") (fresh level))))
     = Ok (VStr "Auto")) /\
  (accepts example_externals (fresh level) (VFloat 0.5) (VFloat 0.5) /\
   fst (Setting_get nat (snd (Setting_set nat example_externals (VFloat 0.5) (fresh level))))
     = Ok (VFloat 0.5)) /\
  ((Z.abs 3 <? float_int_limit) = true /\
   exists f,
     float_of_Z 3 = Ok f /\
     accepts example_externals (fresh level) (VInt 3) (VFloat f) /\
     fst (Setting_get nat (snd (Setting_set nat example_externals (VInt 3) (fresh level))))
       = Ok (VFloat f)).
Proof.
  split; [reflexivity|]. split; [reflexivity|]. split; [|split].
  - split; [reflexivity|].
    apply (proj1 (FloatOrAuto_set_auto_and_numbers
                    example_externals (fresh level) (VStr "AUTO") eq_refl)
                 "AUTO" eq_refl eq_refl).
  - apply (proj1 (proj2 (FloatOrAuto_set_auto_and_numbers
                    example_externals (fresh level) (VFloat 0.5) eq_refl))
                 0.5%float eq_refl).
  - split; [reflexivity|].
    apply (proj2 (proj2 (FloatOrAuto_set_auto_and_numbers
                    example_externals (fresh level) (VInt 3) eq_refl))
                 3 eq_refl).
Defined.

(** C5 against the claim as written: [level.set(2 ** 1024)] is a [set]
    of an integer; it raises [OverflowError], no float is stored, no
    observer is called, and [get()] is still the 2.5 held before. *)
Lemma FloatOrAuto_set_raises_on_a_large_integer :
  class_ level = FloatOrAuto /\
  Setting_set nat example_externals (VInt (2 ^ 1024)) (fresh level)
    = (Raise OverflowError, fresh level) /\
  fst (Setting_get nat
         (snd (Setting_set nat example_externals (VInt (2 ^ 1024)) (fresh level))))
    = Ok (VFloat 2.5).
Proof. repeat split. Qed.

(** C6 at work, and against the claim as written: [flag.set(5)] is
    accepted and stores [True]. *)
Lemma set_5_on_flag :
  class_ (obj (fresh flag)) = Bool /\
  accepts example_externals (fresh flag) (VInt 5) (VBool true).
Proof.
  split; [reflexivity|].
  apply (Bool_set_accepts_bool_and_every_int
           example_externals (fresh flag) (VInt 5) eq_refl).
Defined.

Lemma Bool_set_takes_the_integer_5 :
  Setting_set nat example_externals (VInt 5) (fresh flag)
    = (Ok tt, {| obj := flag; heap := 2%nat; calls := [(1%nat, true); (2%nat, true)] |}) /\
  val flag = Some (VBool true) /\
  (5 =? 0) = false /\ (5 =? 1) = false.
Proof. repeat split. Qed.



(** More of [Bool.fromText]: whitespace other than the blank is dropped
    too, inner whitespace is not, and the words are read in any case. *)
Example Bool_fromText_examples :
  Bool_fromText (VStr (String (ascii_of_nat 31) "yes")) = Ok (VBool true) /\
  Bool_fromText (VStr (String (ascii_of_nat 160) ("No" ++ String (ascii_of_nat 133) "")))
    = Ok (VBool false) /\
  Bool_fromText (VStr (String (ascii_of_nat 9) "TRUE ")) = Ok (VBool true) /\
  Bool_fromText (VStr "y es") = Raise InvalidType /\
  Bool_fromText (VStr "") = Raise InvalidType /\
  Bool_fromText (VInt 1) = Raise AttributeError.
Proof. repeat split. Qed.

(** C8 at work: on [Choice('style', ['a', 'b'], 'a')], "b" gets through
    and "c" does not. *)
Lemma Choice_on_style :
  class_ (obj (fresh (style Choice))) = Choice /\
  vallist (obj (fresh (style Choice))) = map VStr ["a"; "b"] /\
  (exists s, VStr "b" = VStr s /\ In s ["a"; "b"]) /\
  call_fromText nat example_externals (VStr "b") (fresh (style Choice))
    = (Ok (VStr "b"), fresh (style Choice)) /\
  ~ (exists s, VStr "c" = VStr s /\ In s ["a"; "b"]) /\
  rejects example_externals (fresh (style Choice)) (VStr "c").
Proof.
  assert (Hb : exists s, VStr "b" = VStr s /\ In s ["a"; "b"]).
  { exists "b". split; [reflexivity | right; left; reflexivity]. }
  assert (Hc : ~ (exists s, VStr "c" = VStr s /\ In s ["a"; "b"])).
  { intros [s [[= <-] [H|[H|[]]]]]; discriminate H. }
  split; [reflexivity|]. split; [reflexivity|]. split; [exact Hb|].
  split; [|split; [exact Hc|]].
  - apply (proj1 (proj2 (Choice_set_and_fromText_accept_exactly_members
             example_externals (fresh (style Choice)) ["a"; "b"] (VStr "b")
             eq_refl eq_refl))).
    exact Hb.
  - apply (proj2 (proj2 (Choice_set_and_fromText_accept_exactly_members
             example_externals (fresh (style Choice)) ["a"; "b"] (VStr "c")
             eq_refl eq_refl))).
    exact Hc.
Defined.

(** C9 at work: on [ChoiceOrMore('style', ['a', 'b'], 'a')], "c" gets
    through. *)
Lemma ChoiceOrMore_on_style :
  class_ (obj (fresh (style ChoiceOrMore))) = ChoiceOrMore /\
  accepts example_externals (fresh (style ChoiceOrMore)) (VStr "c") (VStr "c").
Proof.
  split; [reflexivity|].
  apply (ChoiceOrMore_never_rejects
           example_externals (fresh (style ChoiceOrMore)) (VStr "c") eq_refl).
Defined.



(** C4 at work: [FloatOrAuto('min', 'Auto')] answers [True] to
    [isDefault()] right after its construction, and so does [flag] right
    after [flag.newDefault(1)], whose [get()] is [True] against a default
    of 1. *)
Lemma isDefault_after_Auto :
  (new nat example_externals FloatOrAuto "min" [] (VStr "Auto") [] "" 0%nat
     = (Ok (set_onmodified nat [] minimum), 0%nat) /\
   at_default example_externals (fresh (set_onmodified nat [] minimum)) (VStr "Auto") /\
   fst (Setting_isDefault nat (fresh (set_onmodified nat [] minimum))) = Ok true) /\
  (convertTo nat example_externals (obj (fresh flag)) (VInt 1) = Ok (VBool true) /\
   at_default example_externals
     (snd (Setting_newDefault nat example_externals (VInt 1) (fresh flag))) (VInt 1) /\
   fst (Setting_isDefault nat
          (snd (Setting_newDefault nat example_externals (VInt 1) (fresh flag))))
     = Ok true).
Proof.
  destruct (isDefault_right_after_construction_or_newDefault
              (W := nat) example_externals) as (Hnew & Hnd & Hans).
  split.
  - pose proof (Hnew FloatOrAuto "min" [] (VStr "Auto") [] "" 0%nat _ 0%nat
                  0%nat [] eq_refl) as Hat.
    split; [reflexivity|]. split; [exact Hat|].
    destruct (Hans _ _ Hat) as (_ & _ & _ & Hauto & _).
    exact (Hauto (or_intror eq_refl) "Auto" eq_refl).
  - pose proof (Hnd (fresh flag) (VInt 1) (VBool true) eq_refl) as Hat.
    split; [reflexivity|]. split; [exact Hat|].
    destruct (Hans _ _ Hat) as (_ & _ & Hbool & _).
    exact (Hbool eq_refl).
Defined.

(** C4 against the claim as written.  [FloatOrAuto('min', 'auto')] is
    constructed, holds the sentinel, and [isDefault()] answers [False] at
    once: the default kept is the argument 'auto' as passed, and [get()]
    is 'Auto'.  The same after [newDefault('auto')], and for
    [Bool('flag', 2)], whose [get()] is [True] against a default of 2. *)
Lemma isDefault_is_false_right_after_construction :
  (exists s,
     new nat example_externals FloatOrAuto "min" [] (VStr "auto") [] "" 0%nat
       = (Ok s, 0%nat) /\
     val s = Some VNone /\
     default s = VStr "auto" /\
     fst (Setting_get nat (fresh s)) = Ok (VStr "Auto") /\
     fst (Setting_isDefault nat (fresh s)) = Ok false) /\
  (fst (Setting_newDefault nat example_externals (VStr "auto") (fresh minimum)) = Ok tt /\
   fst (Setting_isDefault nat
          (snd (Setting_newDefault nat example_externals (VStr "auto") (fresh minimum))))
     = Ok false) /\
  (exists s,
     new nat example_externals Bool "flag" [] (VInt 2) [] "" 0%nat = (Ok s, 0%nat) /\
     fst (Setting_isDefault nat (fresh s)) = Ok false).
Proof.
  split; [|split].
  - eexists. repeat split.
  - split; reflexivity.
  - eexists. split; reflexivity.
Qed.

(* ================================================================== *)
(** ** 10. Further properties: what a sequence of calls keeps *)

Section CallerLemmas.
Context {W : Type} (E : externals).
Implicit Types (m : machine W) (s : setting W) (v x : pyval).

(** Validation looks at the class and at [vallist] and at nothing else
    of the object. *)
Lemma convertTo_frame s1 s2 v :
  class_ s1 = class_ s2 -> vallist s1 = vallist s2 ->
  convertTo W E s1 v = convertTo W E s2 v.
Proof.
  intros Hk Hl. unfold convertTo, Choice_convertTo. now rewrite Hk, Hl.
Qed.

(** The object after [set]: untouched, or with [val] replaced by what
    [convertTo] returned. *)
Lemma Setting_set_obj_cases m v :
  (exists e, convertTo W E (obj m) v = Raise e /\ Setting_set W E v m = (Raise e, m)) \/
  (exists x, convertTo W E (obj m) v = Ok x /\
             obj (snd (Setting_set W E v m)) = set_val W x (obj m)).
Proof.
  destruct (convertTo W E (obj m) v) as [x|e] eqn:Hc.
  - right. exists x. split; [reflexivity|]. now apply Setting_set_obj.
  - left. exists e. split; [reflexivity|]. now rewrite Setting_set_unfold, Hc.
Qed.

(** The loop calls a prefix of the list, each function with [True]. *)
Lemma notify_calls_prefix (obs : list (callback W)) : forall m,
  exists k, calls (snd (notify obs m))
            = calls m ++ map (fun i => (cb_id i, true)) (firstn k obs).
Proof.
  induction obs as [|i obs IH]; intros m.
  - exists 0%nat. simpl. now rewrite app_nil_r.
  - rewrite notify_cons. pose proof (call_calls i true m) as Hc.
    destruct (call W i true m) as [[[]|e] m1]; simpl in Hc.
    + destruct (IH m1) as [k Hk]. exists (S k).
      rewrite Hk, Hc. simpl. now rewrite <- app_assoc.
    + exists 1%nat. simpl. now rewrite Hc.
Qed.

Lemma notify_app (a b : list (callback W)) : forall m,
  notify (a ++ b) m =
  match notify a m with
  | (Ok _, m1) => notify b m1
  | (Raise e, m1) => (Raise e, m1)
  end.
Proof.
  induction a as [|i a IH]; intros m; [reflexivity|].
  simpl app. rewrite !notify_cons.
  destruct (call W i true m) as [[[]|e] m1]; [apply IH | reflexivity].
Qed.

(** What each kind of call does to the object: the reading calls leave the
    whole state alone. *)
Lemma run_reading_calls m :
  run E Do_get m = m /\ run E Do_isDefault m = m /\ run E Do_toText m = m /\
  (forall t, run E (Do_fromText t) m = m) /\
  run E Do_getName m = m /\ run E Do_getDescription m = m.
Proof.
  assert (Hg : snd (Setting_get W m) = m).
  { unfold Setting_get, bind, read_self, lift, self_val, ret.
    destruct (val (obj m)); reflexivity. }
  repeat split; try assumption; try reflexivity.
  unfold run, Setting_isDefault, bind, read_self, ret.
  destruct (Setting_get W m) as [[g|e] m1]; simpl in Hg; now subst.
Qed.

Lemma run_same_identity (o : op) m :
  same_identity (obj (run E o m)) (obj m).
Proof.
  destruct (run_reading_calls m) as (Hg & Hi & Ht & Hf & Hn & Hd).
  destruct o as [v|v|fn| | | |t| |];
    try (first [rewrite Hg | rewrite Hi | rewrite Ht | rewrite Hf
               | rewrite Hn | rewrite Hd]; repeat split).
  - unfold run.
    destruct (Setting_set_obj_cases m v) as [(e & _ & ->)|(x & _ & ->)];
      repeat split.
  - unfold run, Setting_newDefault, bind, write_self.
    destruct (Setting_set_obj_cases
                {| obj := set_default W v (obj m); heap := heap m; calls := calls m |} v)
      as [(e & _ & ->)|(x & _ & ->)]; repeat split.
  - repeat split.
Qed.

Lemma run_all_same_identity (os : list op) : forall m,
  same_identity (obj (run_all E os m)) (obj m).
Proof.
  induction os as [|o os IH]; intros m; [repeat split|].
  simpl. destruct (IH (run E o m)) as (H1 & H2 & H3 & H4 & H5).
  destruct (run_same_identity o m) as (K1 & K2 & K3 & K4 & K5).
  repeat split; congruence.
Qed.

(** What a constructor call that returns has built. *)
Lemma new_returns c nm vl v im d h s h' :
  new W E c nm vl v im d h = (Ok s, h') ->
  h' = h /\ class_ s = c /\ name s = nm /\ descr s = d /\ default s = v /\
  onmodified s = [] /\ vallist s = vallist_of c vl /\
  exists x, val s = Some x /\ convertTo W E s v = Ok x.
Proof.
  unfold new. intros H.
  assert (Hs : exists s0,
            (class_ s0 = c /\ name s0 = nm /\ descr s0 = d /\ default s0 = v /\
             onmodified s0 = [] /\ vallist s0 = vallist_of c vl) /\
            match Setting_set W E v {| obj := s0; heap := h; calls := [] |} with
            | (Ok _, m) => (Ok (obj m), heap m)
            | (Raise e, m) => (Raise e, heap m)
            end = (Ok s, h')).
  { exists (set_onmodified W [] (set_default W v (set_descr W d (set_name W nm
              match c with
              | Choice | ChoiceOrMore => set_images W im (set_vallist W vl (blank W c))
              | _ => blank W c
              end)))).
    destruct c; (split; [repeat split | exact H]). }
  clear H. destruct Hs as (s0 & (Hk & Hn & Hde & Hd & Hobs & Hvl) & H).
  rewrite Setting_set_unfold in H. simpl obj in H. rewrite Hobs in H.
  destruct (convertTo W E s0 v) as [x|e] eqn:Hc; [|discriminate H].
  simpl in H. injection H as <- <-.
  repeat split; try assumption.
  exists x. split; [reflexivity | exact Hc].
Qed.
End CallerLemmas.

Section CallerProperties.
Context {W : Type} (E : externals).
Implicit Types (m : machine W) (s : setting W) (v x : pyval).

Lemma convertTo_well_stored s v x :
  convertTo W E s v = Ok x -> well_stored (class_ s) x = true.
Proof.
  unfold convertTo. destruct (class_ s); intros H; try reflexivity.
  - unfold Str_convertTo in H.
    destruct (pytype_eqb (type v) str_t) eqn:Ht; [|discriminate H].
    injection H as <-. destruct v; try discriminate Ht; reflexivity.
  - unfold Bool_convertTo in H.
    destruct (type_in (type v) [bool_t; int_t]); [|discriminate H].
    now injection H as <-.
  - unfold Int_convertTo in H.
    destruct (pytype_eqb (type v) int_t) eqn:Ht; [|discriminate H].
    injection H as <-. destruct v; try discriminate Ht; reflexivity.
  - unfold Float_convertTo in H. destruct v; simpl in H; try discriminate H.
    + destruct (float_of_Z z); simpl in H; [|discriminate H]. now injection H as <-.
    + now injection H as <-.
  - unfold FloatOrAuto_convertTo in H. destruct v; simpl in H; try discriminate H.
    + destruct (float_of_Z z); simpl in H; [|discriminate H]. now injection H as <-.
    + now injection H as <-.
    + destruct (String.eqb (lower (strip s0)) "auto"); [|discriminate H].
      now injection H as <-.
  - unfold IntOrAuto_convertTo in H. destruct v; simpl in H; try discriminate H.
    + now injection H as <-.
    + destruct (String.eqb (lower (strip s0)) "auto"); [|discriminate H].
      now injection H as <-.
Qed.

(** X1.  Whatever [set] takes into storage has the storage type of the
    class: a [str] for [Str], a [bool] for [Bool], an [int] for [Int], a
    [float] for [Float], a [float] or [None] for [FloatOrAuto], an [int]
    or [None] for [IntOrAuto]; for [Distance] it is a value the checker
    accepts and for [Choice] a member of [vallist].  All classes except
    [Bool], [Float] and the two [...OrAuto] store the value as given. *)
Theorem stored_value_has_the_storage_type_of_its_class s v x :
  convertTo W E s v = Ok x ->
  well_stored (class_ s) x = true /\
  (class_ s = Distance -> isDist E x = Ok true) /\
  (class_ s = Choice -> py_in x (vallist s) = true) /\
  (In (class_ s) [Str; Int; Distance; Choice; ChoiceOrMore] -> x = v).
Proof.
  intros H. split; [now apply (convertTo_well_stored s v)|].
  unfold convertTo in H.
  split; [|split].
  - intros Hk. rewrite Hk in H. unfold Distance_convertTo in H.
    destruct (isDist E v) as [[|]|] eqn:Hd; simpl in H; try discriminate H.
    now injection H as <-.
  - intros Hk. rewrite Hk in H. unfold Choice_convertTo in H.
    destruct (py_in v (vallist s)) eqn:Hin; [|discriminate H].
    now injection H as <-.
  - intros Hin. simpl in Hin.
    destruct Hin as [Hk|[Hk|[Hk|[Hk|[Hk|[]]]]]]; rewrite <- Hk in H.
    + unfold Str_convertTo in H.
      destruct (pytype_eqb (type v) str_t); [|discriminate H]. now injection H.
    + unfold Int_convertTo in H.
      destruct (pytype_eqb (type v) int_t); [|discriminate H]. now injection H.
    + unfold Distance_convertTo in H.
      destruct (isDist E v) as [[|]|]; simpl in H; try discriminate H.
      now injection H.
    + unfold Choice_convertTo in H.
      destruct (py_in v (vallist s)); [|discriminate H]. now injection H.
    + now injection H.
Qed.

(** X2.  Once a setting is constructed, no sequence of calls (each
    returning or raising) changes its class, its name or its description:
    [getName()] and [getDescription()] always return the constructor's
    arguments. *)
Theorem name_and_description_are_fixed_at_construction
    c nm vl v im d h s h' (os : list op) hh cs :
  new W E c nm vl v im d h = (Ok s, h') ->
  let m' := run_all E os {| obj := s; heap := hh; calls := cs |} in
  fst (Setting_getName W m') = Ok nm /\
  fst (Setting_getDescription W m') = Ok d /\
  class_ (obj m') = c /\
  vallist (obj m') = vallist_of c vl.
Proof.
  intros H m'.
  apply new_returns in H as (_ & Hk & Hn & Hd & _ & _ & Hvl & _).
  destruct (run_all_same_identity E os {| obj := s; heap := hh; calls := cs |})
    as (K1 & K2 & K3 & K4 & _).
  fold m' in K1, K2, K3, K4. simpl in K1, K2, K3, K4.
  unfold Setting_getName, Setting_getDescription, bind, read_self, ret. simpl.
  repeat split; congruence.
Qed.

Lemma run_keeps_accepted_value (o : op) m :
  (exists v, val (obj m) = Some v) -> holds_accepted_value E m ->
  (exists v, val (obj (run E o m)) = Some v) /\ holds_accepted_value E (run E o m).
Proof.
  intros Hsome Hinv.
  destruct (run_reading_calls E m) as (Hg & Hi & Ht & Hf & Hn & Hd).
  assert (Hset : forall m0, obj m0 = obj m \/ (exists d, obj m0 = set_default W d (obj m)) ->
            forall v, (exists w, val (obj (snd (Setting_set W E v m0))) = Some w) /\
                      holds_accepted_value E (snd (Setting_set W E v m0))).
  { intros m0 Hm0 v.
    assert (Hc0 : forall y, convertTo W E (obj m0) y = convertTo W E (obj m) y).
    { intros y. destruct Hm0 as [->|[d0 ->]]; reflexivity. }
    assert (Hv0 : val (obj m0) = val (obj m)).
    { destruct Hm0 as [->|[d0 ->]]; reflexivity. }
    destruct (Setting_set_obj_cases E m0 v) as [(e & _ & ->)|(x & Hc & Ho)].
    - simpl. split; [now rewrite Hv0|].
      intros w Hw. rewrite Hv0 in Hw. destruct (Hinv w Hw) as [y Hy].
      exists y. now rewrite Hc0.
    - split; [rewrite Ho; simpl; eauto|].
      intros w Hw. rewrite Ho in Hw. simpl in Hw. injection Hw as <-.
      exists v. rewrite Ho.
      now rewrite (convertTo_frame E (set_val W x (obj m0)) (obj m0)). }
  destruct o as [v|v|fn| | | |t| |];
    try (first [rewrite Hg | rewrite Hi | rewrite Ht | rewrite Hf
               | rewrite Hn | rewrite Hd]; split; assumption).
  - apply (Hset m). now left.
  - apply (Hset {| obj := set_default W v (obj m); heap := heap m; calls := calls m |}).
    right. now exists v.
  - split; [exact Hsome|]. intros w Hw. exact (Hinv w Hw).
Qed.

(** X3.  The invariant of the data model: from its construction on and
    through any sequence of calls, [val] is bound, holds a value that
    [convertTo] returned for some input, and has the storage type of the
    class.  A rejected [set] or [newDefault] cannot break it. *)
Theorem val_always_holds_an_accepted_value
    c nm vl v im d h s h' (os : list op) hh cs :
  new W E c nm vl v im d h = (Ok s, h') ->
  let m' := run_all E os {| obj := s; heap := hh; calls := cs |} in
  exists w x,
    val (obj m') = Some w /\
    convertTo W E (obj m') x = Ok w /\
    well_stored c w = true.
Proof.
  intros H m'.
  apply new_returns in H as (_ & Hk & _ & _ & _ & _ & _ & x0 & Hv & Hc).
  assert (Hall : forall os m,
            (exists w, val (obj m) = Some w) -> holds_accepted_value E m ->
            (exists w, val (obj (run_all E os m)) = Some w) /\
            holds_accepted_value E (run_all E os m)).
  { clear. induction os as [|o os IH]; intros m Hs Hi; [now split|].
    simpl. destruct (run_keeps_accepted_value o m Hs Hi) as [Hs' Hi'].
    now apply IH. }
  destruct (Hall os {| obj := s; heap := hh; calls := cs |}) as [[w Hw] Hinv].
  - simpl. eauto.
  - intros w Hw. simpl in Hw. rewrite Hv in Hw. injection Hw as <-. now exists v.
  - fold m' in Hw, Hinv. destruct (Hinv w Hw) as [x Hx].
    exists w, x. split; [exact Hw|]. split; [exact Hx|].
    apply convertTo_well_stored in Hx.
    destruct (run_all_same_identity E os {| obj := s; heap := hh; calls := cs |})
      as (K1 & _). fold m' in K1. simpl in K1. now rewrite K1, Hk in Hx.
Qed.
Lemma In_firstn {A : Type} (k : nat) : forall (l : list A) (a : A),
  In a (firstn k l) -> In a l.
Proof.
  induction k as [|k IH]; intros [|b l] a H; simpl in H; try contradiction.
  destruct H as [->|H]; [now left | right; now apply IH].
Qed.

Lemma registered_cons (o : @op W) (os : list (@op W)) :
  registered (o :: os) = registered [o] ++ registered os.
Proof. destruct o; reflexivity. Qed.

Lemma run_observers_and_calls (o : op) m :
  onmodified (obj (run E o m)) = onmodified (obj m) ++ registered [o] /\
  exists k, calls (run E o m)
            = calls m ++ map (fun i => (cb_id i, true)) (firstn k (onmodified (obj m))).
Proof.
  destruct (run_reading_calls E m) as (Hg & Hi & Ht & Hf & Hn & Hd).
  assert (Hnone : onmodified (obj m) = onmodified (obj m) ++ [] /\
            exists k, calls m = calls m ++
              map (fun i => (cb_id i, true)) (firstn k (onmodified (obj m)))).
  { split; [now rewrite app_nil_r|]. exists 0%nat. simpl. now rewrite app_nil_r. }
  assert (Hset : forall m0, onmodified (obj m0) = onmodified (obj m) ->
            calls m0 = calls m -> forall v,
            onmodified (obj (snd (Setting_set W E v m0))) = onmodified (obj m) ++ [] /\
            exists k, calls (snd (Setting_set W E v m0)) = calls m ++
              map (fun i => (cb_id i, true)) (firstn k (onmodified (obj m)))).
  { intros m0 Ho Hc v. rewrite Setting_set_unfold.
    destruct (convertTo W E (obj m0) v) as [x|e].
    - rewrite notify_obj. simpl. rewrite Ho. split; [now rewrite app_nil_r|].
      destruct (notify_calls_prefix (onmodified (obj m)) (stored x m0)) as [k Hk].
      exists k. rewrite Hk. simpl. now rewrite Hc.
    - simpl. rewrite Ho, Hc. exact Hnone. }
  destruct o as [v|v|fn| | | |t| |];
    try (first [rewrite Hg | rewrite Hi | rewrite Ht | rewrite Hf
               | rewrite Hn | rewrite Hd]; exact Hnone).
  - now apply Hset.
  - unfold run, Setting_newDefault, bind, write_self. now apply Hset.
  - split; [reflexivity|]. exists 0%nat. simpl. now rewrite app_nil_r.
Qed.

(** X4.  Over any sequence of calls, observers are only ever added:
    [onmodified] afterwards is [onmodified] before followed by the
    functions registered meanwhile, in order.  The call log only grows,
    and every call it gains is a call of a registered function with the
    argument [True]. *)
Theorem observers_accumulate_and_are_called_with_True (os : list op) : forall m,
  onmodified (obj (run_all E os m)) = onmodified (obj m) ++ registered os /\
  exists ext,
    calls (run_all E os m) = calls m ++ ext /\
    Forall (fun c => snd c = true /\
                     exists i, In i (onmodified (obj (run_all E os m))) /\
                               cb_id i = fst c) ext.
Proof.
  induction os as [|o os IH]; intros m.
  - simpl. split; [now rewrite app_nil_r|]. exists []. split; [now rewrite app_nil_r|].
    constructor.
  - simpl run_all. destruct (IH (run E o m)) as (Ho & ext & Hc & Hall).
    destruct (run_observers_and_calls o m) as (Ho1 & k & Hc1).
    split.
    + rewrite Ho, Ho1, (registered_cons o os). symmetry. apply app_assoc.
    + exists (map (fun i => (cb_id i, true)) (firstn k (onmodified (obj m))) ++ ext).
      split; [rewrite Hc, Hc1; now rewrite app_assoc|].
      apply Forall_app. split; [|exact Hall].
      apply Forall_forall. intros c Hin. apply in_map_iff in Hin as (i & <- & Hi).
      split; [reflexivity|]. exists i. split; [|reflexivity].
      rewrite Ho, Ho1. apply in_or_app. left. apply in_or_app. left.
      now apply (In_firstn k).
Qed.

(** X5.  [set] is not undone when an observer raises.  If validation
    passes and the observers before [i] return while [i] raises [e], then
    [set] raises [e] with the new value already stored; the observers up
    to [i] have been called, in order, and those after [i] have not. *)
Theorem set_keeps_the_value_when_an_observer_raises m v x pre i post e :
  convertTo W E (obj m) v = Ok x ->
  onmodified (obj m) = pre ++ i :: post ->
  (forall j h, In j pre -> fst (cb_call j true h) = Ok tt) ->
  (forall h, fst (cb_call i true h) = Raise e) ->
  let out := Setting_set W E v m in
  fst out = Raise e /\
  val (obj (snd out)) = Some x /\
  calls (snd out) = calls m ++ map (fun j => (cb_id j, true)) (pre ++ [i]).
Proof.
  intros Hc Hobs Hpre Hi out. subst out.
  rewrite Setting_set_unfold, Hc, Hobs, notify_app.
  pose proof (notify_quiet pre Hpre (stored x m)) as Hq.
  pose proof (notify_obj pre (stored x m)) as Ho.
  destruct (notify pre (stored x m)) as [[[]|e'] m1] eqn:Hn; [|discriminate Hq].
  apply notify_returns in Hn. simpl in Ho, Hn.
  rewrite notify_cons.
  pose proof (call_result i true m1) as Hr. rewrite Hi in Hr.
  pose proof (call_obj i true m1) as Ho2.
  pose proof (call_calls i true m1) as Hc2.
  destruct (call W i true m1) as [[[]|e'] m2]; simpl in Hr; [discriminate Hr|].
  injection Hr as ->. simpl in Ho2, Hc2. simpl.
  split; [reflexivity|]. split.
  - now rewrite Ho2, Ho.
  - rewrite Hc2, Hn, map_app. simpl. now rewrite <- app_assoc.
Qed.

(** X6.  Validation failure of any kind leaves the state alone: whatever
    exception [convertTo] raises ([InvalidType], but also the
    [OverflowError] of [float()] on an integer beyond the float range, or
    an exception of the distance checker), [set] raises that exception
    with the object, the heap and the call log as they were. *)
Theorem set_raises_what_convertTo_raises_and_changes_nothing m v e :
  convertTo W E (obj m) v = Raise e ->
  Setting_set W E v m = (Raise e, m) /\
  fst (Setting_newDefault W E v m) = Raise e /\
  val (obj (snd (Setting_newDefault W E v m))) = val (obj m) /\
  calls (snd (Setting_newDefault W E v m)) = calls m.
Proof.
  intros Hc. split; [now rewrite Setting_set_unfold, Hc|].
  unfold Setting_newDefault, bind, write_self.
  rewrite Setting_set_unfold. simpl obj.
  rewrite (convertTo_frame E (set_default W v (obj m)) (obj m)) by reflexivity.
  rewrite Hc. repeat split.
Qed.

(** X7.  A constructor validates the initial value before there is an
    object: it raises what [convertTo] raises on that value and gives no
    object, or it returns an object with the name, description and class
    given, the initial value as [default], what [convertTo] returned in
    [val], and no observer.  The heap is untouched either way. *)
Theorem constructor_validates_the_initial_value c nm vl v im d (h : W) :
  match convertTo W E (set_vallist W (vallist_of c vl) (blank W c)) v with
  | Ok x =>
      new W E c nm vl v im d h =
      (Ok {| class_ := c; name := nm; descr := d; default := v; onmodified := [];
             val := Some x; vallist := vallist_of c vl;
             images := match c with Choice | ChoiceOrMore => im | _ => [] end |}, h)
  | Raise e => new W E c nm vl v im d h = (Raise e, h)
  end.
Proof.
  destruct (convertTo W E (set_vallist W (vallist_of c vl) (blank W c)) v)
    as [x|e] eqn:Hc.
  - destruct c;
      unfold new, Choice_init, ChoiceOrMore_init, Setting_init, bind, write_self;
      rewrite Setting_set_unfold; simpl obj;
      match goal with
      | |- context [convertTo W E ?s0 v] =>
          replace (convertTo W E s0 v) with (@Ok pyval x)
            by (rewrite <- Hc; reflexivity)
      end; reflexivity.
  - destruct c;
      unfold new, Choice_init, ChoiceOrMore_init, Setting_init, bind, write_self;
      rewrite Setting_set_unfold; simpl obj;
      match goal with
      | |- context [convertTo W E ?s0 v] =>
          replace (convertTo W E s0 v) with (@Raise pyval e)
            by (rewrite <- Hc; reflexivity)
      end; reflexivity.
Qed.

(** X8.  A [newDefault] that returns has done all of a [set] and more:
    [default] is the argument as passed, [val] is what [convertTo] made of
    it, [get()] is its external form, and every observer was called once,
    in order, with [True]. *)
Theorem newDefault_success_updates_and_notifies m v m' :
  Setting_newDefault W E v m = (Ok tt, m') ->
  default (obj m') = v /\
  (exists x, convertTo W E (obj m) v = Ok x /\ val (obj m') = Some x /\
             fst (Setting_get W m') = Ok (convertFrom W (obj m) x)) /\
  calls m' = calls m ++ map (fun i => (cb_id i, true)) (onmodified (obj m)) /\
  onmodified (obj m') = onmodified (obj m).
Proof.
  unfold Setting_newDefault, bind, write_self. intros H.
  rewrite Setting_set_unfold in H. simpl obj in H.
  rewrite (convertTo_frame E (set_default W v (obj m)) (obj m)) in H by reflexivity.
  destruct (convertTo W E (obj m) v) as [x|e]; [|discriminate H].
  simpl in H.
  pose proof (notify_obj (onmodified (obj m))
                (stored x {| obj := set_default W v (obj m);
                             heap := heap m; calls := calls m |})) as Ho.
  rewrite H in Ho. simpl in Ho.
  apply notify_returns in H. simpl in H.
  split; [now rewrite Ho|]. split; [|split; [exact H | now rewrite Ho]].
  exists x. split; [reflexivity|]. split; [now rewrite Ho|].
  rewrite Setting_get_result, Ho. reflexivity.
Qed.
End CallerProperties.

(* ================================================================== *)
(** ** 11. Further properties: how the conversions compose *)

Section ConversionProperties.
Context {W : Type} (E : externals).
Implicit Types (m : machine W) (s : setting W) (v x : pyval).

(** X9.  [set(get())] is always accepted and stores the value already
    held: for a value [w] in storage, [convertTo(convertFrom(w))] is [w]
    again.  The stored sentinel itself is no input: [set(None)] is
    rejected by [FloatOrAuto] and [IntOrAuto]. *)
Theorem set_of_get_stores_the_same_value m v w :
  convertTo W E (obj m) v = Ok w ->
  val (obj m) = Some w ->
  (exists g, fst (Setting_get W m) = Ok g /\ accepts E m g w) /\
  (class_ (obj m) = FloatOrAuto \/ class_ (obj m) = IntOrAuto -> rejects E m VNone).
Proof.
  intros Hc Hv. split.
  - exists (convertFrom W (obj m) w). rewrite Setting_get_result, Hv.
    split; [reflexivity|]. apply accepts_of_convertTo.
    pose proof (convertTo_well_stored E _ _ _ Hc) as Hw.
    unfold convertTo, convertFrom in *.
    destruct (class_ (obj m)); unfold well_stored in Hw; simpl in Hw;
      unfold Setting_convertFrom.
    + destruct w; try discriminate Hw; reflexivity.
    + destruct w; try discriminate Hw; reflexivity.
    + destruct w; try discriminate Hw; reflexivity.
    + destruct w; try discriminate Hw; reflexivity.
    + destruct w; try discriminate Hw; reflexivity.
    + destruct w; try discriminate Hw; reflexivity.
    + unfold Distance_convertTo in *.
      destruct (isDist E v) as [[|]|] eqn:Hd; simpl in Hc; try discriminate Hc.
      injection Hc as <-. now rewrite Hd.
    + unfold Choice_convertTo in *.
      destruct (py_in v (vallist (obj m))) eqn:Hin; [|discriminate Hc].
      injection Hc as <-. now rewrite Hin.
    + reflexivity.
  - intros [Hk|Hk]; apply rejects_of_convertTo; unfold convertTo; now rewrite Hk.
Qed.

(** X10.  Whatever [fromText] returns for a text is a value [set]
    accepts, in every class: a text that parses never fails validation
    afterwards. *)
Theorem fromText_of_a_text_is_accepted_by_set s (t : string) y :
  fromText W E s (VStr t) = Ok y ->
  exists w, convertTo W E s y = Ok w.
Proof.
  unfold fromText, convertTo. destruct (class_ s); intros H.
  - injection H as <-. now exists (VStr t).
  - unfold Bool_fromText, strip_lower, rbind in H.
    repeat match type of H with
           | context [if ?b then _ else _] => destruct b
           end;
      first [discriminate H | injection H as <-; eexists; reflexivity].
  - unfold Int_fromText in H. simpl in H.
    destruct (Z_of_str t); [|discriminate H].
    injection H as <-. eexists; reflexivity.
  - unfold Float_fromText in H. simpl in H.
    destruct (float_of_str E t); [|discriminate H].
    injection H as <-. eexists; reflexivity.
  - unfold FloatOrAuto_fromText in H. simpl in H.
    destruct (String.eqb (lower (strip t)) "auto");
      [injection H as <-; eexists; reflexivity|].
    destruct (float_of_str E t); [|discriminate H].
    injection H as <-. eexists; reflexivity.
  - unfold IntOrAuto_fromText in H. simpl in H.
    destruct (String.eqb (lower (strip t)) "auto");
      [injection H as <-; eexists; reflexivity|].
    destruct (Z_of_str t); [|discriminate H].
    injection H as <-. eexists; reflexivity.
  - unfold Distance_fromText in H. unfold Distance_convertTo.
    destruct (isDist E (VStr t)) as [[|]|] eqn:Hd; simpl in H; try discriminate H.
    injection H as <-. rewrite Hd. eexists; reflexivity.
  - unfold Choice_fromText in H. unfold Choice_convertTo.
    destruct (py_in (VStr t) (vallist s)) eqn:Hin; [|discriminate H].
    injection H as <-. rewrite Hin. eexists; reflexivity.
  - injection H as <-. eexists; reflexivity.
Qed.

(** X11.  On a text, [fromText] raises nothing but [InvalidType]: the
    [ValueError] of [int()] and [float()] never gets out.  For [Distance]
    this needs the distance checker to return on that text. *)
Theorem fromText_of_a_text_raises_only_InvalidType s (t : string) e :
  (class_ s = Distance -> exists b, isDist E (VStr t) = Ok b) ->
  fromText W E s (VStr t) = Raise e ->
  e = InvalidType.
Proof.
  unfold fromText. intros Hd. destruct (class_ s); intros H.
  - discriminate H.
  - unfold Bool_fromText, strip_lower, rbind in H.
    repeat match type of H with
           | context [if ?b then _ else _] => destruct b
           end;
      first [discriminate H | now injection H].
  - unfold Int_fromText in H. simpl in H.
    destruct (Z_of_str t); [discriminate H|]. now injection H.
  - unfold Float_fromText in H. simpl in H.
    destruct (float_of_str E t); [discriminate H|]. now injection H.
  - unfold FloatOrAuto_fromText in H. simpl in H.
    destruct (String.eqb (lower (strip t)) "auto"); [discriminate H|].
    destruct (float_of_str E t); [discriminate H|]. now injection H.
  - unfold IntOrAuto_fromText in H. simpl in H.
    destruct (String.eqb (lower (strip t)) "auto"); [discriminate H|].
    destruct (Z_of_str t); [discriminate H|]. now injection H.
  - unfold Distance_fromText in H. destruct (Hd eq_refl) as [b Hb].
    rewrite Hb in H. simpl in H. destruct b; [discriminate H|]. now injection H.
  - unfold Choice_fromText in H.
    destruct (py_in (VStr t) (vallist s)); [discriminate H|]. now injection H.
  - discriminate H.
Qed.

(** X12.  [Int] normalises text.  A text that [int()] reads as [z]
    (surrounding whitespace, a sign, leading zeros and single underscores
    between digits allowed, no more than [max_str_digits] digits) is
    parsed to [z]; once that is set, [toText()] is [str(z)], the plain
    decimal text of [z], which exists, and that text parses to [z] again.
    A text [int()] cannot read raises [InvalidType].  An integer that
    [str()] cannot write, for having more than [max_str_digits] digits,
    can be set but has no text: [toText()] raises [ValueError]. *)
Theorem Int_text_is_normalised m (t : string) :
  class_ (obj m) = Int ->
  match Z_of_str t with
  | Some z =>
      fromText W E (obj m) (VStr t) = Ok (VInt z) /\
      accepts E m (VInt z) (VInt z) /\
      exists c,
        str_of_Z z = Some c /\
        toText W E (obj (snd (Setting_set W E (VInt z) m))) = Ok (VStr c) /\
        fromText W E (obj m) (VStr c) = Ok (VInt z)
  | None => fromText W E (obj m) (VStr t) = Raise InvalidType
  end /\
  (forall z,
     str_of_Z z = None ->
     accepts E m (VInt z) (VInt z) /\
     toText W E (obj (snd (Setting_set W E (VInt z) m))) = Raise ValueError).
Proof.
  intros Hk.
  assert (Hc : forall z, convertTo W E (obj m) (VInt z) = Ok (VInt z)).
  { intros z. unfold convertTo. now rewrite Hk. }
  assert (Ht : forall z,
            toText W E (obj (snd (Setting_set W E (VInt z) m)))
            = match str_of_Z z with
              | Some c => Ok (VStr c)
              | None => Raise ValueError
              end).
  { intros z. rewrite (Setting_set_obj E m _ _ (Hc z)). unfold toText. simpl.
    rewrite Hk. unfold Int_toText, self_val. simpl.
    destruct (str_of_Z z); reflexivity. }
  split.
  - unfold fromText. rewrite Hk. unfold Int_fromText. simpl.
    destruct (Z_of_str t) as [z|] eqn:Hz; [|reflexivity].
    split; [reflexivity|]. split; [now apply accepts_of_convertTo|].
    destruct (str_of_Z_of_str t z Hz) as [c Hs].
    exists c. split; [exact Hs|]. split.
    + now rewrite Ht, Hs.
    + now rewrite (Z_of_str_of_Z z c Hs).
  - intros z Hs. split; [now apply accepts_of_convertTo|].
    now rewrite Ht, Hs.
Qed.

(** X13.  On an [IntOrAuto] setting, [set] accepts exactly the integers,
    stored as they are, and the texts that are "auto" once stripped and
    lower-cased, stored as the sentinel, after which [get()] is the text
    "Auto".  Floats, booleans, [None] and any other text are rejected. *)
Theorem IntOrAuto_set_accepts_int_and_auto m v :
  class_ (obj m) = IntOrAuto ->
  match v with
  | VInt z =>
      accepts E m v (VInt z) /\
      fst (Setting_get W (snd (Setting_set W E v m))) = Ok (VInt z)
  | VStr t =>
      if String.eqb (lower (strip t)) "auto"
      then accepts E m v VNone /\
           fst (Setting_get W (snd (Setting_set W E v m))) = Ok (VStr "Auto")
      else rejects E m v
  | VNone | VBool _ | VFloat _ | VObj _ => rejects E m v
  end.
Proof.
  intros Hk.
  assert (Hget : forall x, convertTo W E (obj m) v = Ok x ->
            accepts E m v x /\
            fst (Setting_get W (snd (Setting_set W E v m)))
            = Ok (IntOrAuto_convertFrom x)).
  { intros x Hc. split; [now apply accepts_of_convertTo|].
    rewrite Setting_get_result, (Setting_set_obj E m _ _ Hc). simpl.
    unfold convertFrom. simpl. now rewrite Hk. }
  destruct v as [|b|z|f|t|i];
    try (apply rejects_of_convertTo; unfold convertTo; rewrite Hk; reflexivity).
  - apply (Hget (VInt z)). unfold convertTo. now rewrite Hk.
  - destruct (String.eqb (lower (strip t)) "auto") eqn:Ha.
    + apply (Hget VNone). unfold convertTo, IntOrAuto_convertTo. rewrite Hk.
      simpl. now rewrite Ha.
    + apply rejects_of_convertTo. unfold convertTo, IntOrAuto_convertTo.
      rewrite Hk. simpl. now rewrite Ha.
Qed.
End ConversionProperties.

(* ================================================================== *)
(** ** 12. The further properties at work *)

(** X1 at work: [Bool.set(5)] puts a [bool] into storage. *)
Lemma storage_type_on_flag :
  convertTo nat example_externals flag (VInt 5) = Ok (VBool true) /\
  well_stored (class_ flag) (VBool true) = true.
Proof.
  split; [reflexivity|].
  apply (stored_value_has_the_storage_type_of_its_class
           example_externals flag (VInt 5) (VBool true) eq_refl).
Defined.

(** X2 and X3 at work: [Int('count', 3, 'how many')], then a rejected
    [set], a [newDefault], a registration and a [set]. *)
Lemma name_of_count_after_calls :
  new nat example_externals Int "count" [] (VInt 3) [] "how many" 0%nat
    = (Ok (count Int (VInt 3)), 0%nat) /\
  fst (Setting_getName nat
         (run_all example_externals
            [Do_set (VStr "x"); Do_newDefault (VInt 7);
             Do_setOnModified (tick 1); Do_set (VInt 9)]
            (fresh (count Int (VInt 3))))) = Ok "count".
Proof.
  split; [reflexivity|].
  apply (name_and_description_are_fixed_at_construction example_externals
           Int "count" [] (VInt 3) [] "how many" 0%nat (count Int (VInt 3)) 0%nat
           _ 0%nat [] eq_refl).
Defined.

Lemma val_of_count_after_calls :
  new nat example_externals Int "count" [] (VInt 3) [] "how many" 0%nat
    = (Ok (count Int (VInt 3)), 0%nat) /\
  exists w x,
    val (obj (run_all example_externals
                [Do_set (VStr "x"); Do_newDefault (VFloat 2); Do_set (VInt 9)]
                (fresh (count Int (VInt 3))))) = Some w /\
    convertTo nat example_externals
      (obj (run_all example_externals
              [Do_set (VStr "x"); Do_newDefault (VFloat 2); Do_set (VInt 9)]
              (fresh (count Int (VInt 3))))) x = Ok w /\
    well_stored Int w = true.
Proof.
  split; [reflexivity|].
  apply (val_always_holds_an_accepted_value example_externals
           Int "count" [] (VInt 3) [] "how many" 0%nat (count Int (VInt 3)) 0%nat
           _ 0%nat [] eq_refl).
Defined.

(** X5 at work: [guarded.set(False)] raises what [grumpy 2] raises;
    [False] is stored, [tick 1] and [grumpy 2] were called, [tick 3] was
    not. *)
Lemma set_on_guarded :
  convertTo nat example_externals (obj (fresh guarded)) (VBool false) = Ok (VBool false) /\
  onmodified (obj (fresh guarded)) = [tick 1] ++ grumpy 2 :: [tick 3] /\
  fst (Setting_set nat example_externals (VBool false) (fresh guarded))
    = Raise (UserError 2) /\
  val (obj (snd (Setting_set nat example_externals (VBool false) (fresh guarded))))
    = Some (VBool false) /\
  calls (snd (Setting_set nat example_externals (VBool false) (fresh guarded)))
    = calls (fresh guarded) ++ map (fun j => (cb_id j, true)) ([tick 1] ++ [grumpy 2]).
Proof.
  split; [reflexivity|]. split; [reflexivity|].
  apply (set_keeps_the_value_when_an_observer_raises example_externals
           (fresh guarded) (VBool false) (VBool false) [tick 1] (grumpy 2) [tick 3]
           (UserError 2) eq_refl eq_refl).
  - intros j h [<-|[]]. reflexivity.
  - intros h. reflexivity.
Defined.

(** X6 at work: [Float.set(2**1024)] raises [OverflowError], not
    [InvalidType], and changes nothing. *)
Lemma set_overflow_on_count :
  convertTo nat example_externals (obj (fresh (count Float (VFloat 1)))) (VInt (2 ^ 1024))
    = Raise OverflowError /\
  Setting_set nat example_externals (VInt (2 ^ 1024)) (fresh (count Float (VFloat 1)))
    = (Raise OverflowError, fresh (count Float (VFloat 1))).
Proof.
  split; [reflexivity|].
  apply (set_raises_what_convertTo_raises_and_changes_nothing example_externals
           (fresh (count Float (VFloat 1))) (VInt (2 ^ 1024)) OverflowError eq_refl).
Defined.

(** X8 at work: [flag.newDefault(False)]. *)
Lemma newDefault_on_flag :
  Setting_newDefault nat example_externals (VBool false) (fresh flag)
    = (Ok tt, {| obj := set_val nat (VBool false) (set_default nat (VBool false) flag);
                 heap := 2%nat; calls := [(1%nat, true); (2%nat, true)] |}) /\
  default (set_val nat (VBool false) (set_default nat (VBool false) flag)) = VBool false.
Proof.
  split; [reflexivity|].
  apply (newDefault_success_updates_and_notifies example_externals
           (fresh flag) (VBool false) _ eq_refl).
Defined.

(** X9 at work: [minimum.set(minimum.get())] with the sentinel stored. *)
Lemma set_of_get_on_minimum :
  convertTo nat example_externals (obj (fresh minimum)) (VStr "auto") = Ok VNone /\
  val (obj (fresh minimum)) = Some VNone /\
  (exists g, fst (Setting_get nat (fresh minimum)) = Ok g /\
             accepts example_externals (fresh minimum) g VNone) /\
  rejects example_externals (fresh minimum) VNone.
Proof.
  split; [reflexivity|]. split; [reflexivity|].
  pose proof (set_of_get_stores_the_same_value example_externals
                (fresh minimum) (VStr "auto") VNone eq_refl eq_refl) as [H1 H2].
  split; [exact H1 | apply H2; left; reflexivity].
Defined.

(** X10 at work: [Bool.fromText('no')] gives a value [Bool.set] takes. *)
Lemma fromText_then_set_on_flag :
  fromText nat example_externals flag (VStr "no") = Ok (VBool false) /\
  exists w, convertTo nat example_externals flag (VBool false) = Ok w.
Proof.
  split; [reflexivity|].
  apply (fromText_of_a_text_is_accepted_by_set example_externals
           flag "no" (VBool false) eq_refl).
Defined.

(** X11 at work: [Int.fromText('3.5')]. *)
Lemma fromText_of_3_5_on_count :
  (class_ (count Int (VInt 3)) = Distance ->
   exists b, isDist example_externals (VStr "3.5") = Ok b) /\
  fromText nat example_externals (count Int (VInt 3)) (VStr "3.5") = Raise InvalidType /\
  InvalidType = InvalidType.
Proof.
  split; [intros H; discriminate H|]. split; [reflexivity|].
  apply (fromText_of_a_text_raises_only_InvalidType example_externals
           (count Int (VInt 3)) "3.5" InvalidType).
  - intros H; discriminate H.
  - reflexivity.
Defined.

(** X12 at work: [Int.fromText(' +0_07 ')] is 7, whose text is '7'. *)
Lemma text_of_007_on_count :
  class_ (obj (fresh (count Int (VInt 3)))) = Int /\
  Z_of_str " +0_07 " = Some 7 /\
  str_of_Z 7 = Some "7" /\
  fromText nat example_externals (obj (fresh (count Int (VInt 3)))) (VStr " +0_07 ")
    = Ok (VInt 7) /\
  accepts example_externals (fresh (count Int (VInt 3))) (VInt 7) (VInt 7) /\
  exists c,
    str_of_Z 7 = Some c /\
    toText nat example_externals
      (obj (snd (Setting_set nat example_externals (VInt 7) (fresh (count Int (VInt 3))))))
      = Ok (VStr c) /\
    fromText nat example_externals (obj (fresh (count Int (VInt 3)))) (VStr c)
      = Ok (VInt 7).
Proof.
  split; [reflexivity|]. split; [reflexivity|]. split; [reflexivity|].
  exact (proj1 (Int_text_is_normalised example_externals
                  (fresh (count Int (VInt 3))) " +0_07 " eq_refl)).
Defined.

(** An integer of 4301 digits can be set on an [Int] setting and has no
    text. *)
Example Int_toText_of_a_long_integer :
  fst (Setting_set nat example_externals (VInt (10 ^ 4300)) (fresh (count Int (VInt 3))))
    = Ok tt /\
  toText nat example_externals
    (obj (snd (Setting_set nat example_externals (VInt (10 ^ 4300))
                 (fresh (count Int (VInt 3))))))
    = Raise ValueError.
Proof. split; now vm_compute. Qed.

(** X13 at work: [IntOrAuto.set(2.5)] is rejected, and
    [IntOrAuto.set('\x1fAuto\xa0')] stores the sentinel. *)
Lemma set_float_on_IntOrAuto :
  class_ (obj (fresh (count IntOrAuto (VInt 3)))) = IntOrAuto /\
  rejects example_externals (fresh (count IntOrAuto (VInt 3))) (VFloat 2.5) /\
  accepts example_externals (fresh (count IntOrAuto (VInt 3)))
    (VStr (String (ascii_of_nat 31) ("Auto" ++ String (ascii_of_nat 160) ""))) VNone /\
  fst (Setting_get nat
         (snd (Setting_set nat example_externals
                 (VStr (String (ascii_of_nat 31) ("Auto" ++ String (ascii_of_nat 160) "")))
                 (fresh (count IntOrAuto (VInt 3))))))
    = Ok (VStr "Auto").
Proof.
  split; [reflexivity|]. split.
  - apply (IntOrAuto_set_accepts_int_and_auto example_externals
             (fresh (count IntOrAuto (VInt 3))) (VFloat 2.5) eq_refl).
  - apply (IntOrAuto_set_accepts_int_and_auto example_externals
             (fresh (count IntOrAuto (VInt 3)))
             (VStr (String (ascii_of_nat 31) ("Auto" ++ String (ascii_of_nat 160) "")))
             eq_refl).
Defined.
